(** * Smart Home Dashboard: rules engine, history window, telemetry
      simulator and rule form of [src/SmartHomeDashboard.jsx]

    The dashboard is a single React component.  Its logic lives in four
    places, each embedded below as an executable Rocq function:

    - the history snapshot listener (sort, filter, [slice(-30)]);
    - the simulated IoT hub (one reading per minute for [thermostat-1]);
    - the automation rules engine ([rules.forEach] over the device list);
    - the rule-creation form handler ([handleRuleSubmit]).

    JavaScript numbers are IEEE-754 binary64 values; they are modelled by
    [spec_float] at precision 53 with the operations of the standard
    library's [SpecFloat], so that [parseFloat], [+], [<], [>] and [===]
    compute what the JavaScript engine computes. *)

From Stdlib Require Import ZArith NArith List String Ascii Bool Lia.
From Stdlib Require Import Floats.SpecFloat.
From Stdlib Require Import Sorting.Sorted Sorting.Permutation.
Import ListNotations.

Local Open Scope Z_scope.
Local Open Scope string_scope.

(* ================================================================== *)
(** ** JavaScript numbers *)

Module JsNumber.

Definition prec : Z := 53.
Definition emax : Z := 1024.

(** A Number value: [S754_nan] is [NaN], [S754_zero s] is [+0] or [-0]. *)
Definition number : Type := spec_float.

Definition NaN : number := S754_nan.

(** The Number value of an integer literal such as [75]. *)
Definition of_Z (z : Z) : number := binary_normalize prec emax z 0 false.

(** The Number value of the rational [m / 2^k], used for literals such
    as [0.5] and [1.5] that are exact in binary. *)
Definition of_dyadic (m : Z) (k : Z) : number :=
  binary_normalize prec emax m (- k) false.

Definition add : number -> number -> number := SFadd prec emax.
Definition sub : number -> number -> number := SFsub prec emax.
Definition mul : number -> number -> number := SFmul prec emax.
Definition div : number -> number -> number := SFdiv prec emax.

(** [x < y] and [x == y] on Numbers; both are false as soon as one
    operand is [NaN], and [+0] equals [-0]. *)
Definition ltb : number -> number -> bool := SFltb.
Definition eqb : number -> number -> bool := SFeqb.

Definition is_nan (x : number) : bool :=
  match x with S754_nan => true | _ => false end.

Definition is_zero (x : number) : bool :=
  match x with S754_zero _ => true | _ => false end.

End JsNumber.

Import JsNumber.

(* ================================================================== *)
(** ** [parseFloat]

    [parseFloat(s)] skips leading white space, takes the longest prefix
    that is a [StrDecimalLiteral] (optional sign, then [Infinity] or
    digits with an optional fraction and exponent) and returns its value
    rounded to the nearest Number; it returns [NaN] when no prefix is a
    literal.  Strings are read as UTF-8 here, so the white space and
    line terminator characters outside ASCII are the byte sequences
    that encode them. *)

Module JsParse.

Definition is_digit (c : ascii) : bool :=
  let n := N_of_ascii c in ((48 <=? n) && (n <=? 57))%N.

Definition digit_val (c : ascii) : N := (N_of_ascii c - 48)%N.

Definition is_white (c : ascii) : bool :=
  let n := N_of_ascii c in
  ((9 <=? n) && (n <=? 13))%N || (n =? 32)%N.

(** The number of bytes of the white space or line terminator character
    at the start of [s], or 0 when [s] starts with none: one byte for
    TAB, LF, VT, FF, CR and SP, two for U+00A0, three for U+1680,
    U+2000 to U+200A, U+2028, U+2029, U+202F, U+205F, U+3000 and
    U+FEFF. *)
Definition white_prefix (s : string) : nat :=
  match s with
  | String c1 r =>
      if is_white c1 then 1%nat else
      match r with
      | String c2 r2 =>
          let n1 := N_of_ascii c1 in
          let n2 := N_of_ascii c2 in
          if ((n1 =? 194) && (n2 =? 160))%N then 2%nat else
          match r2 with
          | String c3 _ =>
              let n3 := N_of_ascii c3 in
              if ((n1 =? 225) && (n2 =? 154) && (n3 =? 128))%N
                 || ((n1 =? 226) && (n2 =? 128)
                     && (((128 <=? n3) && (n3 <=? 138))
                         || (n3 =? 168) || (n3 =? 169) || (n3 =? 175)))%N
                 || ((n1 =? 226) && (n2 =? 129) && (n3 =? 159))%N
                 || ((n1 =? 227) && (n2 =? 128) && (n3 =? 128))%N
                 || ((n1 =? 239) && (n2 =? 187) && (n3 =? 191))%N
              then 3%nat else 0%nat
          | EmptyString => 0%nat
          end
      | EmptyString => 0%nat
      end
  | EmptyString => 0%nat
  end.

Fixpoint drop_bytes (n : nat) (s : string) : string :=
  match n, s with
  | S n', String _ r => drop_bytes n' r
  | _, _ => s
  end.

(** At most [fuel] white space characters are skipped; every one of
    them takes at least one byte, so the length of the string is fuel
    enough. *)
Fixpoint trim_start_from (fuel : nat) (s : string) : string :=
  match fuel with
  | O => s
  | S fuel' =>
      match white_prefix s with
      | O => s
      | n => trim_start_from fuel' (drop_bytes n s)
      end
  end.

Definition trim_start (s : string) : string :=
  trim_start_from (String.length s) s.

(** The run of decimal digits at the start of [s], and the rest. *)
Fixpoint take_digits (s : string) : list ascii * string :=
  match s with
  | String c s' =>
      if is_digit c
      then let (ds, r) := take_digits s' in (c :: ds, r)
      else ([], s)
  | EmptyString => ([], s)
  end.

Definition digits_value (ds : list ascii) : N :=
  fold_left (fun acc c => (10 * acc + digit_val c)%N) ds 0%N.

Inductive literal : Type :=
| LitInfinity
| LitDecimal (mant : N) (exp10 : Z).

(** The value of an [ExponentPart] at the start of [s], or 0 when
    there is none (an [e] not followed by digits is not part of the
    literal). *)
Definition scan_exponent (s : string) : Z :=
  match s with
  | String c r =>
      if (Ascii.eqb c "e" || Ascii.eqb c "E")%bool then
        let '(neg, r') :=
          match r with
          | String "+"%char r1 => (false, r1)
          | String "-"%char r1 => (true, r1)
          | _ => (false, r)
          end in
        match take_digits r' with
        | ([], _) => 0
        | (ds, _) =>
            if neg then - Z.of_N (digits_value ds)
            else Z.of_N (digits_value ds)
        end
      else 0
  | EmptyString => 0
  end.

Definition scan_unsigned (s : string) : option literal :=
  if String.prefix "Infinity" s then Some LitInfinity else
  let (ip, r1) := take_digits s in
  match ip, r1 with
  | [], String "."%char r2 =>
      let (fp, r3) := take_digits r2 in
      match fp with
      | [] => None
      | _ => Some (LitDecimal (digits_value fp)
                     (scan_exponent r3 - Z.of_nat (List.length fp)))
      end
  | [], _ => None
  | _ :: _, String "."%char r2 =>
      let (fp, r3) := take_digits r2 in
      Some (LitDecimal (digits_value (ip ++ fp)%list)
              (scan_exponent r3 - Z.of_nat (List.length fp)))
  | _ :: _, _ => Some (LitDecimal (digits_value ip) (scan_exponent r1))
  end.

(** [mant * 10^exp10], rounded to nearest with ties to even. *)
Definition number_of_literal (neg : bool) (l : literal) : number :=
  match l with
  | LitInfinity => S754_infinity neg
  | LitDecimal N0 _ => S754_zero neg
  | LitDecimal (Npos m) e =>
      if (0 <=? e)%Z
      then binary_round prec emax neg (m * Z.to_pos (10 ^ e)) 0
      else div (S754_finite neg m 0)
               (S754_finite false (Z.to_pos (10 ^ (- e))) 0)
  end.

Definition parseFloat (s : string) : number :=
  let t := trim_start s in
  let '(neg, u) :=
    match t with
    | String "+"%char r => (false, r)
    | String "-"%char r => (true, r)
    | _ => (false, t)
    end in
  match scan_unsigned u with
  | Some l => number_of_literal neg l
  | None => NaN
  end.

End JsParse.

Import JsParse.

(* ================================================================== *)
(** ** JavaScript values held in device fields

    A device document is a loosely typed record: a field is a boolean, a
    number, or absent ([undefined] when read).  These are the values the
    dashboard itself stores there (seed data, toggles, sliders through
    [parseFloat], the simulator and the rules engine); [null] is kept
    for completeness.  String-valued device fields are not modelled. *)

Inductive JsValue : Type :=
| JUndefined
| JNull
| JBool (b : bool)
| JNum (n : number).

Module Js.

(** [ToNumber] *)
Definition toNumber (v : JsValue) : number :=
  match v with
  | JUndefined => NaN
  | JNull => S754_zero false
  | JBool true => of_Z 1
  | JBool false => S754_zero false
  | JNum n => n
  end.

(** [ToBoolean] *)
Definition truthy (v : JsValue) : bool :=
  match v with
  | JUndefined | JNull => false
  | JBool b => b
  | JNum n => negb (is_nan n || is_zero n)
  end.

(** [a === b] *)
Definition strict_eq (a b : JsValue) : bool :=
  match a, b with
  | JUndefined, JUndefined => true
  | JNull, JNull => true
  | JBool x, JBool y => Bool.eqb x y
  | JNum x, JNum y => JsNumber.eqb x y
  | _, _ => false
  end.

(** [a !== b] *)
Definition strict_neq (a b : JsValue) : bool := negb (strict_eq a b).

(** [a < b] and [a > b]: both operands go through [ToNumber] (neither
    is a string), and an undefined comparison result counts as false. *)
Definition lt (a b : JsValue) : bool := ltb (toNumber a) (toNumber b).
Definition gt (a b : JsValue) : bool := ltb (toNumber b) (toNumber a).

(** [a + b] on non-string operands. *)
Definition plus (a b : JsValue) : JsValue :=
  JNum (add (toNumber a) (toNumber b)).

(** [a || b] *)
Definition or (a b : JsValue) : JsValue := if truthy a then a else b.

End Js.

(* ================================================================== *)
(** ** Data model *)

Module Device.

(** One element of the [devices] state, [{ id: doc.id, ...doc.data() }]:
    the document's fields, with [id] the document key (the seed stores
    each device under its own [id], so the spread leaves it unchanged).
    A variant that lacks a field reads it as [JUndefined]. *)
Record t : Type := mk {
  id : string;
  name : string;
  type : string;
  room : string;
  targetTemp : JsValue;
  currentTemp : JsValue;
  isOn : JsValue;
  brightness : JsValue;
  speed : JsValue;
  humidity : JsValue
}.

(** The effect of a single-field [updateDoc] on the document, as the
    next snapshot shows it, for the fields that hold a boolean or a
    number.  A write under any other key, [id] included, is not
    modelled: the dashboard issues none. *)
Definition set (field : string) (v : JsValue) (d : t) : t :=
  if field =? "isOn" then
    mk (id d) (name d) (type d) (room d) (targetTemp d) (currentTemp d)
       v (brightness d) (speed d) (humidity d)
  else if field =? "currentTemp" then
    mk (id d) (name d) (type d) (room d) (targetTemp d) v
       (isOn d) (brightness d) (speed d) (humidity d)
  else if field =? "targetTemp" then
    mk (id d) (name d) (type d) (room d) v (currentTemp d)
       (isOn d) (brightness d) (speed d) (humidity d)
  else if field =? "brightness" then
    mk (id d) (name d) (type d) (room d) (targetTemp d) (currentTemp d)
       (isOn d) v (speed d) (humidity d)
  else if field =? "speed" then
    mk (id d) (name d) (type d) (room d) (targetTemp d) (currentTemp d)
       (isOn d) (brightness d) v (humidity d)
  else if field =? "humidity" then
    mk (id d) (name d) (type d) (room d) (targetTemp d) (currentTemp d)
       (isOn d) (brightness d) (speed d) v
  else d.

End Device.

Module Rule.

(** A rule as the form stores it: every field is a string. *)
Record t : Type := mk {
  id : string;
  name : string;
  triggerDevice : string;
  triggerCondition : string;
  triggerValue : string;
  actionDevice : string;
  actionType : string;
  actionValue : string
}.

End Rule.

(** The [newRule] form state: a rule without its document key. *)
Record NewRule : Type := mkNewRule {
  nr_name : string;
  nr_triggerDevice : string;
  nr_triggerCondition : string;
  nr_triggerValue : string;
  nr_actionDevice : string;
  nr_actionType : string;
  nr_actionValue : string
}.

Module HistorySample.

(** A history document; [timestamp] is the millisecond value of
    [timestamp.toDate()]. *)
Record t : Type := mk {
  id : string;
  deviceId : string;
  value : JsValue;
  timestamp : Z
}.

End HistorySample.

Definition num (z : Z) : JsValue := JNum (of_Z z).
Definition absent : JsValue := JUndefined.

(** The seed written when the devices collection is empty. *)
Definition mockDevices : list Device.t :=
  [ Device.mk "thermostat-1" "Living Room Thermostat" "thermostat"
      "Living Room" (num 72) (num 75) absent absent absent absent;
    Device.mk "light-1" "Main Living Light" "light"
      "Living Room" absent absent (JBool true) (num 80) absent absent;
    Device.mk "fan-1" "Ceiling Fan" "fan"
      "Living Room" absent absent (JBool false) absent (num 0) absent;
    Device.mk "light-2" "Kitchen Light" "light"
      "Kitchen" absent absent (JBool false) (num 50) absent absent;
    Device.mk "humidity-1" "Bedroom Humidifier" "humidity"
      "Bedroom" absent absent absent absent absent (num 45);
    Device.mk "light-3" "Bedroom Lamp" "light"
      "Bedroom" absent absent (JBool true) (num 60) absent absent ].

(* ================================================================== *)
(** ** Effects

    The component talks to Firestore and to React state.  A run of one
    of its callbacks is the list of effects it issues, in order, and
    whether it finished or threw. *)

(** The reference that
    [doc(db, `artifacts/${appId}/users/${userId}/devices/${deviceId}`)]
    returns, kept as its three variable segments.  Whether the call
    returns at all is the matter of [doc] below. *)
Inductive DocRef : Type :=
| DevicesDoc (appId userId deviceId : string).

Inductive CollectionRef : Type :=
| HistoryCollection (appId userId : string)
| RulesCollection (appId userId : string).

Inductive DocData : Type :=
| HistoryData (deviceId : string) (value : JsValue) (timestamp : Z)
| RuleData (r : NewRule).

Inductive Effect : Type :=
| UpdateDoc (ref : DocRef) (field : string) (v : JsValue)
| AddDoc (coll : CollectionRef) (data : DocData)
| SetFeedback (message : string) (type : string)
| SetShowRuleModal (b : bool)
| SetNewRule (r : NewRule)
| PreventDefault
| ConsoleError (message : string).

Inductive JsError : Type :=
| TypeError (message : string)
| FirestoreError (code : string) (message : string).

Module Run.

(** Effects issued so far, and the completion: a value or a throw. *)
Definition t (A : Type) : Type := (list Effect * (A + JsError))%type.

Definition ret {A} (a : A) : t A := ([], inl a).

Definition throw {A} (e : JsError) : t A := ([], inr e).

Definition emit (e : Effect) : t unit := ([e], inl tt).

Definition bind {A B} (m : t A) (k : A -> t B) : t B :=
  match m with
  | (w, inl a) => let (w', r) := k a in ((w ++ w')%list, r)
  | (w, inr e) => (w, inr e)
  end.

Definition effects {A} (m : t A) : list Effect := fst m.

Definition completes {A} (m : t A) : Prop := exists a, snd m = inl a.

(** [l.forEach(body)] *)
Fixpoint forEach {A} (l : list A) (body : A -> t unit) : t unit :=
  match l with
  | [] => ret tt
  | x :: xs => bind (body x) (fun _ => forEach xs body)
  end.

End Run.

Notation "x <- m ;; k" := (Run.bind m (fun x => k))
  (at level 61, m at next level, right associativity).
Notation "m ;;; k" := (Run.bind m (fun _ => k))
  (at level 61, right associativity).

(** [o.f] where [o] is the result of [Array.prototype.find]: reading a
    property of [undefined] throws. *)
Definition prop {A} (o : option Device.t) (f : Device.t -> A) : Run.t A :=
  match o with
  | Some d => Run.ret (f d)
  | None => Run.throw (TypeError "Cannot read properties of undefined")
  end.

(** [o?.f] *)
Definition optProp (o : option Device.t) (f : Device.t -> JsValue) : JsValue :=
  match o with
  | Some d => f d
  | None => JUndefined
  end.

(** [!!o] for the result of [find]: an object is truthy. *)
Definition found (o : option Device.t) : bool :=
  match o with Some _ => true | None => false end.

(** [devices.find(d => d.id === key)] *)
Definition findDevice (key : string) (devices : list Device.t)
  : option Device.t :=
  find (fun d => Device.id d =? key) devices.

(* ================================================================== *)
(** ** The automation rules engine *)

Section RulesEngine.

Variables (appId userId : string).
Variable devices : list Device.t.

(** The value the rule wants to write. *)
Definition actionValueOf (rule : Rule.t) : JsValue :=
  if Rule.actionType rule =? "toggle"
  then JBool (Rule.actionValue rule =? "on")
  else JNum (parseFloat (Rule.actionValue rule)).

(** The [switch] on [rule.triggerCondition]; it has no default case. *)
Definition conditionMet (triggerDevice : option Device.t) (rule : Rule.t)
  : Run.t bool :=
  let triggerValue := parseFloat (Rule.triggerValue rule) in
  if Rule.triggerCondition rule =? ">" then
    temp <- prop triggerDevice Device.currentTemp ;;
    Run.ret (Js.gt temp (JNum triggerValue))
  else if Rule.triggerCondition rule =? "<" then
    temp <- prop triggerDevice Device.currentTemp ;;
    Run.ret (Js.lt temp (JNum triggerValue))
  else if Rule.triggerCondition rule =? "==" then
    on <- prop triggerDevice Device.isOn ;;
    Run.ret (Js.strict_eq on (JBool (Rule.triggerValue rule =? "on")))
  else Run.ret false.

(** The callback passed to [rules.forEach], for a document reference
    that can be built; [ruleBodyChecked] further down has the call of
    [doc] itself, which can throw. *)
Definition ruleBody (rule : Rule.t) : Run.t unit :=
  let triggerDevice := findDevice (Rule.triggerDevice rule) devices in
  if negb (found triggerDevice) then Run.ret tt else
  met <- conditionMet triggerDevice rule ;;
  if met then
    let actionDeviceRef := DevicesDoc appId userId (Rule.actionDevice rule) in
    let actionValue := actionValueOf rule in
    let actionDevice := findDevice (Rule.actionDevice rule) devices in
    if found actionDevice then
      on <- prop actionDevice Device.isOn ;;
      if Js.strict_neq on actionValue then
        Run.emit (UpdateDoc actionDeviceRef "isOn" actionValue) ;;;
        Run.emit (SetFeedback ("Rule triggered: " ++ Rule.name rule) "success")
      else Run.ret tt
    else Run.ret tt
  else Run.ret tt.

(** One pass over the rules, in order. *)
Definition evaluate (rules : list Rule.t) : Run.t unit :=
  Run.forEach rules ruleBody.

End RulesEngine.

(** The fourth [useEffect]: nothing runs until authentication is ready
    and a user id is known. *)
Definition rulesEngineEffect (appId : string) (isAuthReady : bool)
    (userId : option string) (devices : list Device.t) (rules : list Rule.t)
  : Run.t unit :=
  match userId with
  | Some uid =>
      if negb isAuthReady || (uid =? "") then Run.ret tt
      else evaluate appId uid devices rules
  | None => Run.ret tt
  end.

(** What the next devices snapshot shows once the write
    [updateDoc(devices/deviceId, {field: v})] has been applied. *)
Definition applyUpdate (deviceId field : string) (v : JsValue)
    (devices : list Device.t) : list Device.t :=
  map (fun d => if Device.id d =? deviceId then Device.set field v d else d)
      devices.

(** The engine emits a write of [v] to [deviceId]'s [isOn]. *)
Definition emitsIsOn (appId userId deviceId : string) (v : JsValue)
    (r : Run.t unit) : Prop :=
  In (UpdateDoc (DevicesDoc appId userId deviceId) "isOn" v) (Run.effects r).

(* ================================================================== *)
(** ** The history snapshot listener *)

Section ArraySort.

Context {A : Type}.
Variable compareFn : A -> A -> Z.

(** [x] goes before the first element it does not compare greater
    than, so equal elements keep their order. *)
Fixpoint insert (x : A) (l : list A) : list A :=
  match l with
  | [] => [x]
  | y :: l' =>
      if (compareFn x y <=? 0)%Z then x :: l else y :: insert x l'
  end.

(** [l.sort(compareFn)]: the stable sort. *)
Definition sort (l : list A) : list A := fold_right insert [] l.

End ArraySort.

(** [l.slice(start)] *)
Definition slice {A : Type} (start : Z) (l : list A) : list A :=
  let len := Z.of_nat (List.length l) in
  let k := if (start <? 0)%Z then Z.max (len + start) 0 else Z.min start len in
  skipn (Z.to_nat k) l.

(** [(a, b) => a.timestamp.toDate() - b.timestamp.toDate()] *)
Definition byTimestamp (a b : HistorySample.t) : Z :=
  HistorySample.timestamp a - HistorySample.timestamp b.

(** [d => d.deviceId === 'thermostat-1'] *)
Definition isThermostat1 (d : HistorySample.t) : bool :=
  HistorySample.deviceId d =? "thermostat-1".

(** The value handed to [setHistoryData] for a snapshot [data]. *)
Definition historyWindow (data : list HistorySample.t)
  : list HistorySample.t :=
  let sorted := sort byTimestamp data in
  let filteredHistory := filter isThermostat1 sorted in
  slice (-30) filteredHistory.

(* ================================================================== *)
(** ** The simulated IoT hub *)

(** What the timer callback reads from [new Date()]. *)
Record Date : Type := mkDate {
  getMinutes : Z;
  getSeconds : Z;
  getTime : Z
}.

(** [(Math.random() - 0.5) * 1.5], for the value [random] returned by
    [Math.random()]. *)
Definition randomTempChange (random : number) : number :=
  mul (sub random (of_dyadic 1 1)) (of_dyadic 3 1).

(** [devices.find(...)?.currentTemp + randomTempChange || 75]: the sum
    binds tighter than [||]. *)
Definition newTemp (devices : list Device.t) (delta : number) : JsValue :=
  Js.or
    (Js.plus (optProp (findDevice "thermostat-1" devices) Device.currentTemp)
             (JNum delta))
    (num 75).

(** One firing of the one-second interval. *)
Definition simulatorTick (appId userId : string) (devices : list Device.t)
    (now : Date) (random : number) : Run.t unit :=
  if (Z.rem (getMinutes now) 1 =? 0)%Z && (getSeconds now =? 0)%Z then
    let temp := newTemp devices (randomTempChange random) in
    Run.emit (AddDoc (HistoryCollection appId userId)
                (HistoryData "thermostat-1" temp (getTime now))) ;;;
    Run.emit (UpdateDoc (DevicesDoc appId userId "thermostat-1")
                "currentTemp" temp)
  else Run.ret tt.

(* ================================================================== *)
(** ** The rule-creation form *)

(** [!s] for a string. *)
Definition emptyStr (s : string) : bool := s =? "".

Definition blankRule : NewRule := mkNewRule "" "" "" "" "" "" "".

(** [handleRuleSubmit]; [addDocOk] tells whether the awaited [addDoc]
    resolved or rejected. *)
Definition handleRuleSubmit (appId userId : string) (newRule : NewRule)
    (addDocOk : bool) : Run.t unit :=
  Run.emit PreventDefault ;;;
  if emptyStr (nr_name newRule) || emptyStr (nr_triggerDevice newRule)
     || emptyStr (nr_actionDevice newRule)
  then Run.emit (SetFeedback "All fields are required." "error")
  else
    Run.emit (AddDoc (RulesCollection appId userId) (RuleData newRule)) ;;;
    if addDocOk then
      Run.emit (SetFeedback "Rule created successfully!" "success") ;;;
      Run.emit (SetShowRuleModal false) ;;;
      Run.emit (SetNewRule blankRule)
    else
      Run.emit (ConsoleError "Error adding rule: ") ;;;
      Run.emit (SetFeedback "Failed to create rule." "error").

(* ================================================================== *)
(** ** Derived notions and scenarios used in the statements *)

(** The [switch], once the trigger device is known to exist. *)
Definition triggerHolds (td : Device.t) (rule : Rule.t) : bool :=
  if Rule.triggerCondition rule =? ">" then
    Js.gt (Device.currentTemp td) (JNum (parseFloat (Rule.triggerValue rule)))
  else if Rule.triggerCondition rule =? "<" then
    Js.lt (Device.currentTemp td) (JNum (parseFloat (Rule.triggerValue rule)))
  else if Rule.triggerCondition rule =? "==" then
    Js.strict_eq (Device.isOn td) (JBool (Rule.triggerValue rule =? "on"))
  else false.

(** The rule passes every test of the callback on the snapshot [D]. *)
Definition fires (D : list Device.t) (rule : Rule.t) : bool :=
  match findDevice (Rule.triggerDevice rule) D with
  | None => false
  | Some td =>
      triggerHolds td rule &&
      match findDevice (Rule.actionDevice rule) D with
      | None => false
      | Some ad => Js.strict_neq (Device.isOn ad) (actionValueOf rule)
      end
  end.

(** The two effects of a rule that fires. *)
Definition firing (appId userId : string) (rule : Rule.t) : list Effect :=
  [ UpdateDoc (DevicesDoc appId userId (Rule.actionDevice rule)) "isOn"
      (actionValueOf rule);
    SetFeedback ("Rule triggered: " ++ Rule.name rule) "success" ].

(** Two rules that disagree about the fan while the thermostat reads
    between their bounds. *)
Definition conflictingRules : list Rule.t :=
  [ Rule.mk "rule-1" "Fan on when warm" "thermostat-1" ">" "70"
      "fan-1" "toggle" "on";
    Rule.mk "rule-2" "Fan off when mild" "thermostat-1" "<" "80"
      "fan-1" "toggle" "off" ].

(** A rule whose [actionType] is not [toggle]. *)
Definition numericRule : Rule.t :=
  Rule.mk "rule-3" "Fan to 1 when warm" "thermostat-1" ">" "70"
    "fan-1" "set" "1".


(** Two rules written through the form (which stores an empty
    [actionType]) that set the same fan. *)
Definition competingRules : list Rule.t :=
  [ Rule.mk "rule-4" "Fan level 1" "thermostat-1" ">" "70" "fan-1" "" "1";
    Rule.mk "rule-5" "Fan level 0" "thermostat-1" ">" "70" "fan-1" "" "0" ].

(** The usual on/off rule: neither of its values parses as a number. *)
Definition onOffRule : Rule.t :=
  Rule.mk "rule-7" "Fan follows light" "light-1" "==" "on"
    "fan-1" "toggle" "on".

(** A thermostat whose current temperature is not known. *)
Definition coldStart : list Device.t :=
  [ Device.mk "thermostat-1" "Living Room Thermostat" "thermostat"
      "Living Room" (num 72) absent absent absent absent absent ].

(** Timestamp order on history samples. *)
Definition tsle (a b : HistorySample.t) : Prop :=
  (HistorySample.timestamp a <= HistorySample.timestamp b)%Z.
Definition tslt (a b : HistorySample.t) : Prop :=
  (HistorySample.timestamp a < HistorySample.timestamp b)%Z.

(** The timestamps are listed in strictly increasing order. *)
Fixpoint increasing (l : list Z) : bool :=
  match l with
  | a :: (b :: _) as rest => (a <? b)%Z && increasing rest
  | _ => true
  end.

(** A snapshot with 35 thermostat samples one minute apart, listed
    newest first, and a sample of another device. *)
Definition minuteSamples : list HistorySample.t :=
  HistorySample.mk "h-x" "light-1" (num 1) 90000
  :: map (fun i => HistorySample.mk "h" "thermostat-1" (num 75)
                     (60000 * Z.of_nat i))
         (rev (seq 0 35)).

(* ================================================================== *)
(** ** Device controls *)

(** [!v] *)
Definition logicalNot (v : JsValue) : JsValue := JBool (negb (Js.truthy v)).

(** [handleToggle(id, currentStatus)] *)
Definition handleToggle (appId userId id : string) (currentStatus : JsValue)
  : Run.t unit :=
  Run.emit (UpdateDoc (DevicesDoc appId userId id) "isOn"
              (logicalNot currentStatus)).

(** [handleSliderChange(id, key, value)] *)
Definition handleSliderChange (appId userId id key : string) (value : JsValue)
  : Run.t unit :=
  Run.emit (UpdateDoc (DevicesDoc appId userId id) key value).

(** The on/off button of a light or fan card: its caption,
    [device.isOn ? 'ON' : 'OFF'], and what a click does. *)
Record ToggleButton : Type := mkButton {
  caption : string;
  onClick : Run.t unit
}.

(** What [renderDeviceCard] builds from the device, displayed text and
    styling left out: the kind of card, its button, and its slider as
    the handler run on the slider's [e.target.value]. *)
Inductive Card : Type :=
| ThermostatCard (targetSlider : string -> Run.t unit)
| LightCard (button : ToggleButton)
            (brightnessSlider : option (string -> Run.t unit))
| FanCard (button : ToggleButton)
| HumidityCard.

Definition toggleButton (appId userId : string) (device : Device.t)
  : ToggleButton :=
  mkButton (if Js.truthy (Device.isOn device) then "ON" else "OFF")
           (handleToggle appId userId (Device.id device) (Device.isOn device)).

(** [renderDeviceCard]: the [switch] on [device.type]; its default case
    renders nothing. *)
Definition renderDeviceCard (appId userId : string) (device : Device.t)
  : option Card :=
  if Device.type device =? "thermostat" then
    Some (ThermostatCard
            (fun input => handleSliderChange appId userId (Device.id device)
                            "targetTemp" (JNum (parseFloat input))))
  else if Device.type device =? "light" then
    Some (LightCard (toggleButton appId userId device)
            (if Js.truthy (Device.isOn device)
             then Some (fun input =>
                          handleSliderChange appId userId (Device.id device)
                            "brightness" (JNum (parseFloat input)))
             else None))
  else if Device.type device =? "fan" then
    Some (FanCard (toggleButton appId userId device))
  else if Device.type device =? "humidity" then Some HumidityCard
  else None.

Definition cardButton (c : Card) : option ToggleButton :=
  match c with
  | LightCard b _ | FanCard b => Some b
  | _ => None
  end.

(** The button on the device's card, if its card has one. *)
Definition deviceButton (appId userId : string) (device : Device.t)
  : option ToggleButton :=
  match renderDeviceCard appId userId device with
  | Some c => cardButton c
  | None => None
  end.

(** The devices snapshot after the document writes among [es] have
    landed, in order. *)
Definition applyEffect (D : list Device.t) (e : Effect) : list Device.t :=
  match e with
  | UpdateDoc (DevicesDoc _ _ x) f v => applyUpdate x f v D
  | _ => D
  end.

Definition applyEffects (es : list Effect) (D : list Device.t)
  : list Device.t :=
  fold_left applyEffect es D.

(* ================================================================== *)
(** ** The form state *)

Inductive FormField : Type :=
| FieldName
| FieldTriggerDevice
| FieldTriggerCondition
| FieldTriggerValue
| FieldActionDevice
| FieldActionValue.

(** The [onChange] handlers of the modal:
    [setNewRule({ ...newRule, field: e.target.value })].  There is one
    per input, and no input for [actionType]. *)
Definition onChange (f : FormField) (value : string) (newRule : NewRule)
  : NewRule :=
  match f with
  | FieldName =>
      mkNewRule value (nr_triggerDevice newRule)
        (nr_triggerCondition newRule) (nr_triggerValue newRule)
        (nr_actionDevice newRule) (nr_actionType newRule)
        (nr_actionValue newRule)
  | FieldTriggerDevice =>
      mkNewRule (nr_name newRule) value
        (nr_triggerCondition newRule) (nr_triggerValue newRule)
        (nr_actionDevice newRule) (nr_actionType newRule)
        (nr_actionValue newRule)
  | FieldTriggerCondition =>
      mkNewRule (nr_name newRule) (nr_triggerDevice newRule)
        value (nr_triggerValue newRule)
        (nr_actionDevice newRule) (nr_actionType newRule)
        (nr_actionValue newRule)
  | FieldTriggerValue =>
      mkNewRule (nr_name newRule) (nr_triggerDevice newRule)
        (nr_triggerCondition newRule) value
        (nr_actionDevice newRule) (nr_actionType newRule)
        (nr_actionValue newRule)
  | FieldActionDevice =>
      mkNewRule (nr_name newRule) (nr_triggerDevice newRule)
        (nr_triggerCondition newRule) (nr_triggerValue newRule)
        value (nr_actionType newRule) (nr_actionValue newRule)
  | FieldActionValue =>
      mkNewRule (nr_name newRule) (nr_triggerDevice newRule)
        (nr_triggerCondition newRule) (nr_triggerValue newRule)
        (nr_actionDevice newRule) (nr_actionType newRule) value
  end.

(** The three pieces of React state the modal touches. *)
Record FormState : Type := mkFormState {
  fs_newRule : NewRule;
  fs_showRuleModal : bool;
  fs_feedback : string * string
}.

(** The [useState] initial values. *)
Definition initialFormState : FormState := mkFormState blankRule false ("", "").

(** What the user can do with the modal. *)
Inductive FormEvent : Type :=
| OpenModal
| Cancel
| Change (f : FormField) (value : string)
| Submit (addDocOk : bool).

(** A state setter among the effects takes its place in the state. *)
Definition formReduce (s : FormState) (e : Effect) : FormState :=
  match e with
  | SetNewRule r => mkFormState r (fs_showRuleModal s) (fs_feedback s)
  | SetShowRuleModal b => mkFormState (fs_newRule s) b (fs_feedback s)
  | SetFeedback m t => mkFormState (fs_newRule s) (fs_showRuleModal s) (m, t)
  | _ => s
  end.

(** One event: the next state and the effects issued. *)
Definition formStep (appId userId : string) (s : FormState) (ev : FormEvent)
  : FormState * list Effect :=
  match ev with
  | OpenModal => (mkFormState (fs_newRule s) true (fs_feedback s), [])
  | Cancel => (mkFormState (fs_newRule s) false (fs_feedback s), [])
  | Change f value =>
      (mkFormState (onChange f value (fs_newRule s)) (fs_showRuleModal s)
         (fs_feedback s), [])
  | Submit ok =>
      let es := Run.effects (handleRuleSubmit appId userId (fs_newRule s) ok) in
      (fold_left formReduce es s, es)
  end.

(** A session with the modal: the final state and all effects. *)
Fixpoint formRun (appId userId : string) (s : FormState)
    (evs : list FormEvent) : FormState * list Effect :=
  match evs with
  | [] => (s, [])
  | ev :: rest =>
      let (s1, es1) := formStep appId userId s ev in
      let (s2, es2) := formRun appId userId s1 rest in
      (s2, (es1 ++ es2)%list)
  end.

(** The rules listener: [{ id: doc.id, ...doc.data() }] for a document
    the form wrote. *)
Definition ruleOfDoc (docId : string) (data : NewRule) : Rule.t :=
  Rule.mk docId (nr_name data) (nr_triggerDevice data)
    (nr_triggerCondition data) (nr_triggerValue data)
    (nr_actionDevice data) (nr_actionType data) (nr_actionValue data).

(* ================================================================== *)
(** ** Authentication *)

Inductive SignInMethod : Type :=
| WithCustomToken (token : string)
| Anonymously.

(** How the awaited sign-in call ended. *)
Inductive SignInResult : Type :=
| SignedIn (uid : string)
| SignInRejected.

Record AuthState : Type := mkAuthState {
  auth_userId : option string;
  auth_isAuthReady : bool
}.

Definition initialAuthState : AuthState := mkAuthState None false.

(** [if (initialAuthToken)]: a missing or empty token means anonymous. *)
Definition signInMethod (initialAuthToken : option string) : SignInMethod :=
  match initialAuthToken with
  | Some token => if emptyStr token then Anonymously else WithCustomToken token
  | None => Anonymously
  end.

(** [initializeAppAndAuth]: the state after the [try]/[catch]. *)
Definition initializeAppAndAuth (result : SignInResult) (s : AuthState)
  : AuthState :=
  match result with
  | SignedIn uid => mkAuthState (Some uid) true
  | SignInRejected => mkAuthState (auth_userId s) true
  end.

(* ================================================================== *)
(** ** History documents *)

(** The history listener's [{ id: doc.id, ...doc.data() }] for a
    document of the history collection. *)
Definition sampleOfDoc (docId : string) (data : DocData)
  : option HistorySample.t :=
  match data with
  | HistoryData deviceId value timestamp =>
      Some (HistorySample.mk docId deviceId value timestamp)
  | RuleData _ => None
  end.

(** Whether [handleRuleSubmit] lets the form through. *)
Definition passesCheck (newRule : NewRule) : bool :=
  negb (emptyStr (nr_name newRule) || emptyStr (nr_triggerDevice newRule)
        || emptyStr (nr_actionDevice newRule)).

(* ================================================================== *)
(** ** Counting effects *)

Definition isWrite (e : Effect) : bool :=
  match e with UpdateDoc _ _ _ => true | _ => false end.

Definition isFeedback (e : Effect) : bool :=
  match e with SetFeedback _ _ => true | _ => false end.

(* ================================================================== *)
(** ** Building the document reference

    Firestore's [doc(db, path)] turns the path into its non-empty
    segments and refuses it, by throwing, when it contains [//] or when
    the number of segments is odd.  The rules engine calls it on the
    action device of a rule whose condition holds, before it looks the
    device up. *)

Definition is_slash (c : ascii) : bool := Ascii.eqb c "/".

(** [path.indexOf('//') >= 0] *)
Fixpoint hasDoubleSlash (path : string) : bool :=
  match path with
  | String c r =>
      (is_slash c
       && match r with String c' _ => is_slash c' | EmptyString => false end)
      || hasDoubleSlash r
  | EmptyString => false
  end.

(** [path.split('/').filter(segment => segment.length > 0).length],
    counted from a position that is inside a segment or not. *)
Fixpoint segmentCount (inSegment : bool) (path : string) : nat :=
  match path with
  | String c r =>
      if is_slash c then segmentCount false r
      else ((if inSegment then 0 else 1) + segmentCount true r)%nat
  | EmptyString => 0%nat
  end.

(** The template string of the devices document. *)
Definition devicesDocPath (appId userId deviceId : string) : string :=
  "artifacts/" ++ appId ++ "/users/" ++ userId ++ "/devices/" ++ deviceId.

(** [doc(db, `artifacts/${appId}/users/${userId}/devices/${deviceId}`)] *)
Definition doc (appId userId deviceId : string) : Run.t DocRef :=
  let path := devicesDocPath appId userId deviceId in
  if hasDoubleSlash path then
    Run.throw (FirestoreError "invalid-argument"
                 "Invalid segment. Paths must not contain // in them.")
  else if Nat.even (segmentCount false path) then
    Run.ret (DevicesDoc appId userId deviceId)
  else
    Run.throw (FirestoreError "invalid-argument"
                 "Invalid document reference. Document references must have an even number of segments.").

(** A string that can stand as one path segment: not empty, no [/]. *)
Fixpoint noSlash (s : string) : bool :=
  match s with
  | String c r => negb (is_slash c) && noSlash r
  | EmptyString => true
  end.

Definition plainSegment (s : string) : bool := negb (emptyStr s) && noSlash s.

Section RulesEngineWithDoc.

Variables (appId userId : string).
Variable devices : list Device.t.

(** The callback passed to [rules.forEach], with the call of [doc] at
    the place where the source has it.  [ruleBody] is this callback for
    a call of [doc] that returns. *)
Definition ruleBodyChecked (rule : Rule.t) : Run.t unit :=
  let triggerDevice := findDevice (Rule.triggerDevice rule) devices in
  if negb (found triggerDevice) then Run.ret tt else
  met <- conditionMet triggerDevice rule ;;
  if met then
    actionDeviceRef <- doc appId userId (Rule.actionDevice rule) ;;
    let actionValue := actionValueOf rule in
    let actionDevice := findDevice (Rule.actionDevice rule) devices in
    if found actionDevice then
      on <- prop actionDevice Device.isOn ;;
      if Js.strict_neq on actionValue then
        Run.emit (UpdateDoc actionDeviceRef "isOn" actionValue) ;;;
        Run.emit (SetFeedback ("Rule triggered: " ++ Rule.name rule) "success")
      else Run.ret tt
    else Run.ret tt
  else Run.ret tt.

(** One pass over the rules, in order; a throw ends it. *)
Definition evaluateChecked (rules : list Rule.t) : Run.t unit :=
  Run.forEach rules ruleBodyChecked.

End RulesEngineWithDoc.

(** The rule reaches the call of [doc] and the call throws. *)
Definition aborts (appId userId : string) (D : list Device.t)
    (rule : Rule.t) : bool :=
  match findDevice (Rule.triggerDevice rule) D with
  | Some td =>
      triggerHolds td rule
      && match snd (doc appId userId (Rule.actionDevice rule)) with
         | inl _ => false
         | inr _ => true
         end
  | None => false
  end.

(** Rules whose action device is the id of no device and is no document
    key: an id with a slash, and the empty id. *)
Definition slashRule : Rule.t :=
  Rule.mk "rule-15" "Door light" "thermostat-1" ">" "70" "a/b" "toggle" "on".

Definition emptyIdRule : Rule.t :=
  Rule.mk "rule-16" "Nothing" "thermostat-1" ">" "70" "" "toggle" "on".

Definition fanRule : Rule.t :=
  Rule.mk "rule-17" "Fan on when warm" "thermostat-1" ">" "70"
    "fan-1" "toggle" "on".

(** 35 samples of a light, one minute apart, oldest first. *)
Definition lightSamples : list HistorySample.t :=
  map (fun i => HistorySample.mk "h" "light-1" (num 1) (60000 * Z.of_nat i))
      (seq 0 35).


(* ================================================================== *)
(** * Properties *)

Arguments parseFloat : simpl never.
Arguments of_Z : simpl never.

(** ** Numbers and values *)


Lemma is_nan_eq (x : number) : is_nan x = true -> x = NaN.
Proof. destruct x; simpl; intros H; try discriminate; reflexivity. Qed.



(** Only a boolean is strictly equal to a boolean. *)
Lemma strict_eq_bool_inv (v : JsValue) (b : bool) :
  Js.strict_eq v (JBool b) = true -> v = JBool b.
Proof.
  destruct v as [| |x|n]; simpl; intros H; try discriminate.
  apply Bool.eqb_prop in H; now subst.
Qed.

Lemma strict_neq_bools (x y : bool) :
  Js.strict_neq (JBool x) (JBool y) = true -> y = negb x.
Proof.
  unfold Js.strict_neq; simpl; destruct x, y; simpl; intros H;
    try discriminate; reflexivity.
Qed.

(** ** The device list *)

Lemma set_id (f : string) (v : JsValue) (d : Device.t) :
  Device.id (Device.set f v d) = Device.id d.
Proof.
  unfold Device.set.
  repeat match goal with |- context [if ?c then _ else _] => destruct c end;
    reflexivity.
Qed.


Lemma findDevice_applyUpdate (key x f : string) (v : JsValue)
    (D : list Device.t) :
  findDevice key (applyUpdate x f v D) =
  option_map (fun d => if Device.id d =? x then Device.set f v d else d)
             (findDevice key D).
Proof.
  unfold findDevice, applyUpdate.
  induction D as [|d D IH]; simpl; [reflexivity|].
  assert (E : Device.id (if Device.id d =? x then Device.set f v d else d)
              = Device.id d)
    by (destruct (Device.id d =? x); [apply set_id | reflexivity]).
  rewrite E. destruct (Device.id d =? key); [reflexivity | exact IH].
Qed.

Lemma findDevice_id (key : string) (D : list Device.t) (d : Device.t) :
  findDevice key D = Some d -> Device.id d = key.
Proof.
  unfold findDevice; intros H; apply find_some in H as [_ H].
  now apply String.eqb_eq.
Qed.

Lemma findDevice_absent (key : string) (D : list Device.t) :
  ~ In key (map Device.id D) -> findDevice key D = None.
Proof.
  intros H. unfold findDevice.
  destruct (find _ D) as [d|] eqn:E; [|reflexivity].
  apply find_some in E as [Hin E]. apply String.eqb_eq in E.
  exfalso; apply H; rewrite <- E; now apply in_map.
Qed.

(** After the write lands, the device reads back the written value. *)
Lemma applyUpdate_reads_back (x : string) (v : JsValue) (D : list Device.t)
    (d' : Device.t) :
  findDevice x (applyUpdate x "isOn" v D) = Some d' -> Device.isOn d' = v.
Proof.
  rewrite findDevice_applyUpdate.
  destruct (findDevice x D) as [d|] eqn:E; simpl; [|discriminate].
  apply findDevice_id in E. rewrite E, String.eqb_refl.
  intros H; injection H as <-; reflexivity.
Qed.

(** ** One rule *)

Lemma conditionMet_found (td : Device.t) (rule : Rule.t) :
  conditionMet (Some td) rule = Run.ret (triggerHolds td rule).
Proof.
  unfold conditionMet, triggerHolds.
  destruct (Rule.triggerCondition rule =? ">"); [reflexivity|].
  destruct (Rule.triggerCondition rule =? "<"); [reflexivity|].
  destruct (Rule.triggerCondition rule =? "=="); reflexivity.
Qed.

Lemma ruleBody_spec (a u : string) (D : list Device.t) (rule : Rule.t) :
  ruleBody a u D rule =
  (if fires D rule then firing a u rule else [], inl tt).
Proof.
  unfold ruleBody, fires.
  destruct (findDevice (Rule.triggerDevice rule) D) as [td|]; simpl;
    [|reflexivity].
  rewrite conditionMet_found.
  destruct (triggerHolds td rule); simpl; [|reflexivity].
  destruct (findDevice (Rule.actionDevice rule) D) as [ad|]; simpl;
    [|reflexivity].
  destruct (Js.strict_neq (Device.isOn ad) (actionValueOf rule)); reflexivity.
Qed.

(** The callback never throws: each property read is behind its guard. *)
Lemma ruleBody_completes (a u : string) (D : list Device.t) (rule : Rule.t) :
  snd (ruleBody a u D rule) = inl tt.
Proof. rewrite ruleBody_spec; reflexivity. Qed.

(** ** One pass *)

Lemma evaluate_spec (a u : string) (D : list Device.t) (R : list Rule.t) :
  evaluate a u D R =
  (flat_map (fun r => Run.effects (ruleBody a u D r)) R, inl tt).
Proof.
  unfold evaluate.
  induction R as [|r R IH]; [reflexivity|].
  simpl. rewrite IH, ruleBody_spec. reflexivity.
Qed.

Lemma evaluate_completes (a u : string) (D : list Device.t) (R : list Rule.t) :
  Run.completes (evaluate a u D R).
Proof. exists tt. rewrite evaluate_spec; reflexivity. Qed.


(** A rule without effects can be dropped from the pass. *)
Lemma evaluate_skip (a u : string) (D : list Device.t) (R1 R2 : list Rule.t)
    (r : Rule.t) :
  ruleBody a u D r = Run.ret tt ->
  evaluate a u D (R1 ++ r :: R2)%list = evaluate a u D (R1 ++ R2)%list.
Proof.
  intros H. rewrite !evaluate_spec. f_equal.
  rewrite !flat_map_app. simpl. rewrite H. reflexivity.
Qed.

(** Every effect of the pass is an effect of one of its rules. *)
Lemma evaluate_effect_inv (a u : string) (D : list Device.t)
    (R : list Rule.t) (e : Effect) :
  In e (Run.effects (evaluate a u D R)) ->
  exists r, In r R /\ fires D r = true /\ In e (firing a u r).
Proof.
  rewrite evaluate_spec; simpl. intros H.
  apply in_flat_map in H as (r & Hr & He).
  rewrite ruleBody_spec in He; simpl in He.
  destruct (fires D r) eqn:F; [|contradiction].
  now exists r.
Qed.


(** A write found in [firing] is the rule's own write. *)
Lemma firing_update_inv (a u : string) (r : Rule.t) (ref : DocRef)
    (f : string) (v : JsValue) :
  In (UpdateDoc ref f v) (firing a u r) ->
  ref = DevicesDoc a u (Rule.actionDevice r) /\ f = "isOn"
  /\ v = actionValueOf r.
Proof.
  intros [H|[H|[]]]; [|discriminate].
  injection H as <- <- <-; auto.
Qed.

(* ================================================================== *)
(** ** The gate of the effect *)

(** Before authentication is ready, or without a user id, the effect
    does nothing; afterwards it is one pass over the rules. *)
Lemma rulesEngineEffect_gate (a : string) (ready : bool)
    (userId : option string) (D : list Device.t) (R : list Rule.t) :
  rulesEngineEffect a ready userId D R =
  match userId with
  | Some uid =>
      if ready && negb (uid =? "") then evaluate a uid D R else Run.ret tt
  | None => Run.ret tt
  end.
Proof.
  unfold rulesEngineEffect. destruct userId as [uid|]; [|reflexivity].
  destruct ready, (uid =? ""); reflexivity.
Qed.

(* ================================================================== *)
(** ** Idempotence guard *)

(** C1, as stated, fails: on the seed devices (thermostat at 75, fan off)
    with [conflictingRules], the pass emits the write [fan-1.isOn := true];
    once that write is applied, the next pass over the same rules emits a
    write to [fan-1.isOn] again, this time [false], and so on forever. *)
Lemma conflicting_rules_oscillate :
  emitsIsOn "app" "user" "fan-1" (JBool true)
    (evaluate "app" "user" mockDevices conflictingRules)
  /\ emitsIsOn "app" "user" "fan-1" (JBool false)
       (evaluate "app" "user"
          (applyUpdate "fan-1" "isOn" (JBool true) mockDevices)
          conflictingRules).
Proof. split; vm_compute; auto. Qed.

(** C1, amended: if a pass over [R] on [D] emits the write of [v] to device
    [X]'s [isOn], and [v] is strictly equal to itself (every boolean and
    every number but [NaN]), then the write comes from a rule of [R] that
    targets [X] and wants [v], and on the snapshot in which the write has
    been applied every rule of [R] that targets [X] and wants [v], that
    rule included, issues no effect at all. *)
Theorem guard_stops_refiring (a u : string) (D : list Device.t)
    (R : list Rule.t) (X : string) (v : JsValue) :
  emitsIsOn a u X v (evaluate a u D R) ->
  Js.strict_eq v v = true ->
  (exists r, In r R /\ Rule.actionDevice r = X /\ actionValueOf r = v
             /\ emitsIsOn a u X v (ruleBody a u D r))
  /\ (forall r, In r R -> Rule.actionDevice r = X -> actionValueOf r = v ->
        ruleBody a u (applyUpdate X "isOn" v D) r = Run.ret tt).
Proof.
  intros Hemit Hrefl. split.
  - apply evaluate_effect_inv in Hemit as (r & Hr & F & He).
    pose proof (firing_update_inv _ _ _ _ _ _ He) as (Eref & _ & Ev).
    injection Eref as EX. exists r. repeat split; auto.
    unfold emitsIsOn. rewrite ruleBody_spec, F. exact He.
  - intros r _ EX Ev. rewrite ruleBody_spec.
    replace (fires (applyUpdate X "isOn" v D) r) with false; [reflexivity|].
    unfold fires.
    destruct (findDevice (Rule.triggerDevice r) _) as [td|]; [|reflexivity].
    rewrite EX.
    destruct (findDevice X (applyUpdate X "isOn" v D)) as [ad|] eqn:E;
      [|now rewrite andb_false_r].
    apply applyUpdate_reads_back in E. rewrite E, Ev.
    unfold Js.strict_neq. rewrite Hrefl. now rewrite andb_false_r.
Qed.

Lemma guard_stops_refiring_witness :
  emitsIsOn "app" "user" "fan-1" (JBool true)
    (evaluate "app" "user" mockDevices conflictingRules)
  /\ ruleBody "app" "user"
       (applyUpdate "fan-1" "isOn" (JBool true) mockDevices)
       (Rule.mk "rule-1" "Fan on when warm" "thermostat-1" ">" "70"
          "fan-1" "toggle" "on")
     = Run.ret tt.
Proof.
  assert (H : emitsIsOn "app" "user" "fan-1" (JBool true)
                (evaluate "app" "user" mockDevices conflictingRules))
    by (vm_compute; auto).
  split; [exact H|].
  apply (guard_stops_refiring "app" "user" mockDevices conflictingRules
           "fan-1" (JBool true) H eq_refl);
    [simpl; auto | reflexivity | reflexivity].
Defined.

(* ================================================================== *)
(** ** The value a rule writes *)

(** C2, as stated, fails: on the seed devices [numericRule] holds and its
    action device is present, and the pass writes the number [1], not the
    boolean [actionValue == "on"], into [fan-1.isOn]. *)
Lemma numeric_action_writes_number :
  Run.effects (evaluate "app" "user" mockDevices [numericRule]) =
    [ UpdateDoc (DevicesDoc "app" "user" "fan-1") "isOn" (JNum (of_Z 1));
      SetFeedback "Rule triggered: Fan to 1 when warm" "success" ]
  /\ JNum (of_Z 1) <> JBool (Rule.actionValue numericRule =? "on").
Proof. split; [reflexivity | discriminate]. Qed.

(** C2, amended: every document write of a pass targets the [isOn] field
    of the action device of one of the rules; the value written is the
    boolean [actionValue == "on"] when that rule's [actionType] is
    [toggle], and the number [parseFloat(actionValue)] for every other
    [actionType]. *)
Theorem write_targets_isOn (a u : string) (D : list Device.t)
    (R : list Rule.t) (ref : DocRef) (f : string) (v : JsValue) :
  In (UpdateDoc ref f v) (Run.effects (evaluate a u D R)) ->
  exists r,
    In r R
    /\ ref = DevicesDoc a u (Rule.actionDevice r)
    /\ f = "isOn"
    /\ v = if Rule.actionType r =? "toggle"
           then JBool (Rule.actionValue r =? "on")
           else JNum (parseFloat (Rule.actionValue r)).
Proof.
  intros H. apply evaluate_effect_inv in H as (r & Hr & _ & He).
  apply firing_update_inv in He as (-> & -> & ->).
  exists r. repeat split; auto.
Qed.

Lemma write_targets_isOn_witness :
  exists r,
    In r [numericRule]
    /\ DevicesDoc "app" "user" "fan-1"
       = DevicesDoc "app" "user" (Rule.actionDevice r)
    /\ "isOn" = "isOn"
    /\ JNum (of_Z 1) = if Rule.actionType r =? "toggle"
                       then JBool (Rule.actionValue r =? "on")
                       else JNum (parseFloat (Rule.actionValue r)).
Proof.
  apply (write_targets_isOn "app" "user" mockDevices [numericRule]).
  vm_compute; auto.
Defined.

(* ================================================================== *)
(** ** Several rules for one device *)




(** When every rule that targets [X] is a [toggle] rule and [X]'s [isOn]
    is a boolean, all the writes of a pass to [X] carry the same value,
    the negation of the snapshot's. *)
Lemma toggle_rules_agree (a u : string) (D : list Device.t)
    (R : list Rule.t) (X : string) (d : Device.t) (b : bool) (v : JsValue) :
  findDevice X D = Some d -> Device.isOn d = JBool b ->
  (forall r, In r R -> Rule.actionDevice r = X ->
             Rule.actionType r = "toggle") ->
  emitsIsOn a u X v (evaluate a u D R) ->
  v = JBool (negb b).
Proof.
  intros Hd Hon Htoggle Hemit.
  apply evaluate_effect_inv in Hemit as (r & Hr & F & He).
  apply firing_update_inv in He as (Eref & _ & ->).
  injection Eref as EX. symmetry in EX.
  unfold fires in F.
  destruct (findDevice (Rule.triggerDevice r) D); [|discriminate].
  rewrite EX, Hd, Hon in F. apply andb_prop in F as [_ F].
  unfold actionValueOf in *. rewrite (Htoggle r Hr EX) in *.
  simpl in *. now rewrite (strict_neq_bools _ _ F).
Qed.




(* ================================================================== *)
(** ** Dangling device references *)

(** *** The call of [doc] *)

Lemma plain_head (s : string) :
  plainSegment s = true ->
  exists c q, s = String c q /\ is_slash c = false /\ noSlash q = true.
Proof.
  destruct s as [|c q]; [discriminate|].
  unfold plainSegment. simpl. intros H. apply andb_prop in H as [Hc Hq].
  exists c, q. rewrite negb_true_iff in Hc. auto.
Qed.

Lemma hasDoubleSlash_noSlash (p rest : string) :
  noSlash p = true -> hasDoubleSlash (p ++ rest) = hasDoubleSlash rest.
Proof.
  induction p as [|c q IH]; simpl; intros H; [reflexivity|].
  apply andb_prop in H as [Hc Hq]. rewrite negb_true_iff in Hc.
  now rewrite Hc, IH.
Qed.

Lemma hasDoubleSlash_plain (p : string) :
  noSlash p = true -> hasDoubleSlash p = false.
Proof.
  induction p as [|c q IH]; simpl; intros H; [reflexivity|].
  apply andb_prop in H as [Hc Hq]. rewrite negb_true_iff in Hc.
  now rewrite Hc, IH.
Qed.

Lemma segmentCount_noSlash (p rest : string) :
  noSlash p = true ->
  segmentCount true (p ++ rest) = segmentCount true rest.
Proof.
  induction p as [|c q IH]; simpl; intros H; [reflexivity|].
  apply andb_prop in H as [Hc Hq]. rewrite negb_true_iff in Hc.
  now rewrite Hc, IH.
Qed.

Lemma segmentCount_plain (p : string) :
  noSlash p = true -> segmentCount true p = 0%nat.
Proof.
  induction p as [|c q IH]; simpl; intros H; [reflexivity|].
  apply andb_prop in H as [Hc Hq]. rewrite negb_true_iff in Hc.
  now rewrite Hc, IH.
Qed.

(** For an application id, a user id and a device id that are each one
    plain segment, the path has six segments and [doc] returns. *)
Lemma doc_plain (a u x : string) :
  plainSegment a = true -> plainSegment u = true -> plainSegment x = true ->
  doc a u x = Run.ret (DevicesDoc a u x).
Proof.
  intros Ha Hu Hx.
  destruct (plain_head a Ha) as (ca & qa & Ea & Hca & Hqa).
  destruct (plain_head u Hu) as (cu & qu & Eu & Hcu & Hqu).
  destruct (plain_head x Hx) as (cx & qx & Ex & Hcx & Hqx).
  unfold doc, devicesDocPath.
  assert (E2 : hasDoubleSlash
                 ("artifacts/" ++ a ++ "/users/" ++ u ++ "/devices/" ++ x)
               = false).
  { subst a u x. simpl. rewrite Hca. simpl.
    rewrite hasDoubleSlash_noSlash by exact Hqa. simpl. rewrite Hcu. simpl.
    rewrite hasDoubleSlash_noSlash by exact Hqu. simpl. rewrite Hcx. simpl.
    now apply hasDoubleSlash_plain. }
  assert (E6 : segmentCount false
                 ("artifacts/" ++ a ++ "/users/" ++ u ++ "/devices/" ++ x)
               = 6%nat).
  { subst a u x. simpl. rewrite Hca. simpl.
    rewrite segmentCount_noSlash by exact Hqa. simpl. rewrite Hcu. simpl.
    rewrite segmentCount_noSlash by exact Hqu. simpl. rewrite Hcx. simpl.
    now rewrite segmentCount_plain. }
  rewrite E2, E6. reflexivity.
Qed.

(** *** The callback with the call of [doc] *)

Lemma bind_ret_l {A B : Type} (x : A) (k : A -> Run.t B) :
  Run.bind (Run.ret x) k = k x.
Proof. unfold Run.bind, Run.ret. destruct (k x); reflexivity. Qed.

Lemma ruleBodyChecked_quiet (a u : string) (D : list Device.t) (r : Rule.t) :
  aborts a u D r = false -> ruleBodyChecked a u D r = ruleBody a u D r.
Proof.
  unfold aborts, ruleBodyChecked, ruleBody.
  destruct (findDevice (Rule.triggerDevice r) D) as [td|]; [|reflexivity].
  cbn [found negb]. rewrite conditionMet_found, !bind_ret_l.
  destruct (triggerHolds td r); [|reflexivity].
  cbn [andb]. intros Hab.
  assert (E : doc a u (Rule.actionDevice r)
              = Run.ret (DevicesDoc a u (Rule.actionDevice r))).
  { unfold doc in Hab |- *.
    destruct (hasDoubleSlash _); [discriminate Hab|].
    destruct (Nat.even _); [reflexivity | discriminate Hab]. }
  now rewrite E, bind_ret_l.
Qed.

Lemma ruleBodyChecked_aborts (a u : string) (D : list Device.t) (r : Rule.t) :
  aborts a u D r = true ->
  exists e, ruleBodyChecked a u D r = ([], inr e).
Proof.
  unfold aborts, ruleBodyChecked.
  destruct (findDevice (Rule.triggerDevice r) D) as [td|]; [|discriminate].
  cbn [found negb]. rewrite conditionMet_found, bind_ret_l.
  destruct (triggerHolds td r); [|discriminate].
  cbn [andb]. unfold doc.
  destruct (hasDoubleSlash _); [intros _; eexists; reflexivity|].
  destruct (Nat.even _); [discriminate | intros _; eexists; reflexivity].
Qed.

Lemma aborts_plain (a u : string) (D : list Device.t) (r : Rule.t) :
  plainSegment a = true -> plainSegment u = true ->
  plainSegment (Rule.actionDevice r) = true ->
  aborts a u D r = false.
Proof.
  intros Ha Hu Hx. unfold aborts. rewrite (doc_plain a u _ Ha Hu Hx).
  destruct (findDevice (Rule.triggerDevice r) D); [|reflexivity].
  apply andb_false_r.
Qed.

(** When no rule reaches a throwing [doc], the pass is the pass of
    [evaluate]. *)
Lemma evaluateChecked_quiet (a u : string) (D : list Device.t)
    (R : list Rule.t) :
  (forall r, In r R -> aborts a u D r = false) ->
  evaluateChecked a u D R = evaluate a u D R.
Proof.
  unfold evaluateChecked, evaluate.
  induction R as [|r R IH]; intros H; [reflexivity|].
  simpl. rewrite ruleBodyChecked_quiet by (apply H; now left).
  rewrite IH by (intros r' Hr'; apply H; now right). reflexivity.
Qed.

Lemma evaluateChecked_completes_inv (a u : string) (D : list Device.t)
    (R : list Rule.t) :
  Run.completes (evaluateChecked a u D R) ->
  forall r, In r R -> aborts a u D r = false.
Proof.
  unfold evaluateChecked.
  induction R as [|r R IH]; intros [x Hx] r' Hr'; [contradiction|].
  simpl in Hx.
  destruct (aborts a u D r) eqn:Er.
  - apply ruleBodyChecked_aborts in Er as [e Ee].
    rewrite Ee in Hx. discriminate.
  - destruct Hr' as [<-|Hr']; [exact Er|].
    apply IH; [|exact Hr'].
    rewrite ruleBodyChecked_quiet, ruleBody_spec in Hx by exact Er.
    simpl in Hx.
    destruct (Run.forEach R (ruleBodyChecked a u D)) as [w res].
    exists x. exact Hx.
Qed.

(** With plain ids the pass with [doc] is the pass of [evaluate]. *)
Lemma evaluateChecked_plain (a u : string) (D : list Device.t)
    (R : list Rule.t) :
  plainSegment a = true -> plainSegment u = true ->
  (forall r, In r R -> plainSegment (Rule.actionDevice r) = true) ->
  evaluateChecked a u D R = evaluate a u D R.
Proof.
  intros Ha Hu H. apply evaluateChecked_quiet.
  intros r Hr. apply aborts_plain; auto.
Qed.

(** A rule whose trigger device is absent, or whose action device is
    absent while its reference can be built, is passed over in
    silence. *)
Lemma dangling_plain_rule_is_skipped (a u : string) (D : list Device.t)
    (r : Rule.t) :
  ~ In (Rule.triggerDevice r) (map Device.id D)
  \/ (~ In (Rule.actionDevice r) (map Device.id D)
      /\ plainSegment a = true /\ plainSegment u = true
      /\ plainSegment (Rule.actionDevice r) = true) ->
  ruleBodyChecked a u D r = Run.ret tt.
Proof.
  intros [H|(H & Ha & Hu & Hx)].
  - unfold ruleBodyChecked. now rewrite (findDevice_absent _ _ H).
  - rewrite ruleBodyChecked_quiet by now apply aborts_plain.
    rewrite ruleBody_spec. replace (fires D r) with false; [reflexivity|].
    unfold fires. rewrite (findDevice_absent _ _ H).
    destruct (findDevice (Rule.triggerDevice r) D);
      [now rewrite andb_false_r | reflexivity].
Qed.

(** C4: the claim says that a rule whose action device is absent from
    [D] is skipped without an error.  The callback guards the lookup of
    the action device, but it builds the document reference before that
    guard: for the absent action device ["a/b"], and for the empty one,
    with a condition that holds on the seed devices, the pass throws at
    the call of [doc], issues nothing, and the rule after it, which
    fires when run alone, never runs. *)
Theorem dangling_action_reference_throws :
  ~ In (Rule.actionDevice slashRule) (map Device.id mockDevices)
  /\ ~ In (Rule.actionDevice emptyIdRule) (map Device.id mockDevices)
  /\ evaluateChecked "app" "user" mockDevices [slashRule; fanRule] =
       ([], inr (FirestoreError "invalid-argument"
                   "Invalid document reference. Document references must have an even number of segments."))
  /\ evaluateChecked "app" "user" mockDevices [emptyIdRule; fanRule] =
       ([], inr (FirestoreError "invalid-argument"
                   "Invalid document reference. Document references must have an even number of segments."))
  /\ evaluateChecked "app" "user" mockDevices [fanRule] =
       ([ UpdateDoc (DevicesDoc "app" "user" "fan-1") "isOn" (JBool true);
          SetFeedback "Rule triggered: Fan on when warm" "success" ],
        inl tt).
Proof.
  repeat split; try reflexivity; simpl; intuition discriminate.
Qed.

(* ================================================================== *)
(** ** Values that do not parse as numbers *)



Lemma no_trigger_no_effect (a u : string) (D : list Device.t) (r : Rule.t) :
  (forall td, findDevice (Rule.triggerDevice r) D = Some td ->
              triggerHolds td r = false) ->
  ruleBody a u D r = Run.ret tt.
Proof.
  intros H. rewrite ruleBody_spec.
  replace (fires D r) with false; [reflexivity|].
  unfold fires.
  destruct (findDevice (Rule.triggerDevice r) D) as [td|]; [|reflexivity].
  now rewrite (H td eq_refl).
Qed.



(* ================================================================== *)
(** ** [==] triggers *)

(** C9: a rule with [triggerCondition] [==] whose trigger device has no
    [isOn] field issues no effect, whatever its [triggerValue] (["off"]
    included), and the pass skips it; and whenever the [==] test
    succeeds on a device, that device's [isOn] is a boolean. *)
Theorem eq_trigger_needs_boolean_isOn (a u : string) (D : list Device.t)
    (R1 R2 : list Rule.t) (r : Rule.t) (td : Device.t) :
  Rule.triggerCondition r = "==" ->
  findDevice (Rule.triggerDevice r) D = Some td ->
  Device.isOn td = JUndefined ->
  ruleBody a u D r = Run.ret tt
  /\ evaluate a u D (R1 ++ r :: R2)%list = evaluate a u D (R1 ++ R2)%list
  /\ (forall td', conditionMet (Some td') r = Run.ret true ->
                  exists b, Device.isOn td' = JBool b).
Proof.
  intros Hc Hfind Hon.
  assert (E : ruleBody a u D r = Run.ret tt).
  { apply no_trigger_no_effect. intros td0 H0.
    rewrite Hfind in H0; injection H0 as <-.
    unfold triggerHolds. rewrite Hc, Hon. reflexivity. }
  split; [exact E|]. split; [now apply evaluate_skip|].
  intros td' H. rewrite conditionMet_found in H.
  injection H as H. unfold triggerHolds in H. rewrite Hc in H. simpl in H.
  apply strict_eq_bool_inv in H. eauto.
Qed.

(** The seed thermostat and humidity sensor carry no [isOn]. *)
Lemma eq_trigger_needs_boolean_isOn_witness :
  ruleBody "app" "user" mockDevices
    (Rule.mk "rule-9" "Thermostat off" "thermostat-1" "==" "off"
       "fan-1" "toggle" "on")
  = Run.ret tt.
Proof.
  apply (eq_trigger_needs_boolean_isOn "app" "user" mockDevices [] []
           (Rule.mk "rule-9" "Thermostat off" "thermostat-1" "==" "off"
              "fan-1" "toggle" "on")
           (Device.mk "thermostat-1" "Living Room Thermostat" "thermostat"
              "Living Room" (num 72) (num 75) absent absent absent absent));
    reflexivity.
Defined.

(* ================================================================== *)
(** ** Conditions outside the [switch] *)



(* ================================================================== *)
(** ** The rule form *)

(** What the handler's test does cover: when the name, the trigger
    device or the action device is empty, the submission ends with the
    error feedback and nothing else, and no write to any collection is
    attempted. *)
Theorem missing_field_is_rejected (a u : string) (nr : NewRule) (ok : bool) :
  nr_name nr = "" \/ nr_triggerDevice nr = "" \/ nr_actionDevice nr = "" ->
  handleRuleSubmit a u nr ok =
    ([PreventDefault; SetFeedback "All fields are required." "error"], inl tt)
  /\ (forall c d, ~ In (AddDoc c d) (Run.effects (handleRuleSubmit a u nr ok))).
Proof.
  intros H.
  assert (E : emptyStr (nr_name nr) || emptyStr (nr_triggerDevice nr)
              || emptyStr (nr_actionDevice nr) = true).
  { unfold emptyStr. destruct H as [H|[H|H]]; rewrite H; simpl.
    - reflexivity.
    - now rewrite orb_true_r.
    - now rewrite orb_true_r. }
  assert (E' : handleRuleSubmit a u nr ok =
    ([PreventDefault; SetFeedback "All fields are required." "error"], inl tt))
    by (unfold handleRuleSubmit; rewrite E; reflexivity).
  split; [exact E'|].
  intros c d Hin. rewrite E' in Hin. simpl in Hin.
  destruct Hin as [Hin|[Hin|[]]]; discriminate.
Qed.

Lemma missing_field_is_rejected_witness :
  handleRuleSubmit "app" "user"
    (mkNewRule "Fan on when warm" "" ">" "75" "fan-1" "" "on") true =
    ([PreventDefault; SetFeedback "All fields are required." "error"], inl tt).
Proof.
  apply (missing_field_is_rejected "app" "user"
           (mkNewRule "Fan on when warm" "" ">" "75" "fan-1" "" "on") true).
  right; left; reflexivity.
Defined.


(* ================================================================== *)
(** ** The simulator *)

(** C8, as stated, fails: with [Math.random()] returning [0.75] the
    change is [0.375]; for the thermostat of [coldStart] the claim gives
    [75 + 0.375], but the tick appends and writes exactly [75]. *)
Lemma unknown_temp_gives_plain_default :
  randomTempChange (of_dyadic 3 2) = of_dyadic 3 3
  /\ simulatorTick "app" "user" coldStart (mkDate 7 0 60000) (of_dyadic 3 2) =
       ([ AddDoc (HistoryCollection "app" "user")
            (HistoryData "thermostat-1" (num 75) 60000);
          UpdateDoc (DevicesDoc "app" "user" "thermostat-1")
            "currentTemp" (num 75) ], inl tt)
  /\ num 75 <> JNum (add (of_Z 75) (of_dyadic 3 3)).
Proof. repeat split; try reflexivity. vm_compute; discriminate. Qed.

(** Between minute marks the callback does nothing. *)
Lemma tick_idle (a u : string) (D : list Device.t) (now : Date)
    (random : number) :
  getSeconds now <> 0%Z -> simulatorTick a u D now random = Run.ret tt.
Proof.
  intros H. unfold simulatorTick.
  apply Z.eqb_neq in H. rewrite H. now rewrite andb_false_r.
Qed.

(** C8, amended: on a tick at second 0 the simulator appends one history
    sample for [thermostat-1] and writes the same value to that device's
    [currentTemp], and does nothing else.  With [delta] the change drawn
    for the tick, the value is [currentTemp + delta] when the current
    temperature is a number and that sum is neither [NaN] nor zero; it is
    exactly [75], without [delta], when the current temperature is
    unknown, and also when the sum is [NaN] or zero. *)
Theorem tick_reading (a u : string) (D : list Device.t) (now : Date)
    (random : number) :
  getSeconds now = 0%Z ->
  simulatorTick a u D now random =
    ([ AddDoc (HistoryCollection a u)
         (HistoryData "thermostat-1"
            (newTemp D (randomTempChange random)) (getTime now));
       UpdateDoc (DevicesDoc a u "thermostat-1") "currentTemp"
         (newTemp D (randomTempChange random)) ], inl tt)
  /\ (optProp (findDevice "thermostat-1" D) Device.currentTemp = JUndefined ->
      newTemp D (randomTempChange random) = num 75)
  /\ (forall t,
        optProp (findDevice "thermostat-1" D) Device.currentTemp = JNum t ->
        newTemp D (randomTempChange random) =
          if is_nan (add t (randomTempChange random))
             || is_zero (add t (randomTempChange random))
          then num 75
          else JNum (add t (randomTempChange random))).
Proof.
  intros Hs. split; [|split].
  - unfold simulatorTick. rewrite Hs, Z.rem_1_r. reflexivity.
  - intros H. unfold newTemp. rewrite H. reflexivity.
  - intros t H. unfold newTemp. rewrite H.
    unfold Js.or, Js.plus, Js.truthy. simpl Js.toNumber.
    destruct (is_nan (add t (randomTempChange random))
              || is_zero (add t (randomTempChange random))); reflexivity.
Qed.

Lemma tick_reading_witness :
  newTemp coldStart (randomTempChange (of_dyadic 3 2)) = num 75
  /\ newTemp mockDevices (randomTempChange (of_dyadic 3 2)) =
       JNum (add (of_Z 75) (of_dyadic 3 3)).
Proof.
  destruct (tick_reading "app" "user" coldStart (mkDate 7 0 60000)
              (of_dyadic 3 2) eq_refl) as (_ & Hunknown & _).
  destruct (tick_reading "app" "user" mockDevices (mkDate 7 0 60000)
              (of_dyadic 3 2) eq_refl) as (_ & _ & Hknown).
  split; [apply Hunknown; reflexivity|].
  rewrite (Hknown (of_Z 75) eq_refl). reflexivity.
Defined.

(* ================================================================== *)
(** ** The history window *)

Section WindowFacts.

Import HistorySample.

(** *** The sort *)

Lemma insert_perm (x : t) (l : list t) :
  Permutation (insert byTimestamp x l) (x :: l).
Proof.
  induction l as [|y l IH]; simpl; [apply Permutation_refl|].
  destruct (byTimestamp x y <=? 0)%Z; [apply Permutation_refl|].
  eapply Permutation_trans; [apply perm_skip, IH | apply perm_swap].
Qed.

Lemma sort_perm (l : list t) : Permutation (sort byTimestamp l) l.
Proof.
  induction l as [|x l IH]; simpl; [constructor|].
  eapply Permutation_trans; [apply insert_perm | now apply perm_skip].
Qed.

Lemma insert_sorted (x : t) (l : list t) :
  StronglySorted tsle l -> StronglySorted tsle (insert byTimestamp x l).
Proof.
  induction 1 as [|y l Hl IH Hy]; simpl.
  - repeat constructor.
  - unfold byTimestamp at 1.
    destruct (timestamp x - timestamp y <=? 0)%Z eqn:E.
    + apply Z.leb_le in E. constructor; [now constructor|].
      constructor; [unfold tsle; lia|].
      eapply Forall_impl; [|exact Hy].
      unfold tsle; intros z Hz; lia.
    + apply Z.leb_gt in E. constructor; [exact IH|].
      eapply Permutation_Forall;
        [apply Permutation_sym, insert_perm|].
      constructor; [unfold tsle; lia | exact Hy].
Qed.

Lemma sort_sorted (l : list t) : StronglySorted tsle (sort byTimestamp l).
Proof.
  induction l as [|x l IH]; simpl; [constructor | now apply insert_sorted].
Qed.

(** *** Filtering and cutting a sorted list *)

Lemma filter_perm (f : t -> bool) (l l' : list t) :
  Permutation l l' -> Permutation (filter f l) (filter f l').
Proof.
  induction 1 as [|x l l' _ IH|x y l|l l' l'' _ IH1 _ IH2]; simpl.
  - constructor.
  - destruct (f x); [now constructor | exact IH].
  - destruct (f x), (f y);
      try apply Permutation_refl; apply perm_swap.
  - eapply Permutation_trans; eassumption.
Qed.

Lemma filter_sorted (R : t -> t -> Prop) (f : t -> bool) (l : list t) :
  StronglySorted R l -> StronglySorted R (filter f l).
Proof.
  induction 1 as [|x l Hl IH Hx]; simpl; [constructor|].
  destruct (f x); [|exact IH].
  constructor; [exact IH|].
  apply Forall_forall. intros y Hy. apply filter_In in Hy as [Hy _].
  revert y Hy. now apply Forall_forall.
Qed.

Lemma sorted_app_inv (R : t -> t -> Prop) (l1 l2 : list t) :
  StronglySorted R (l1 ++ l2)%list ->
  StronglySorted R l2 /\ (forall x y, In x l1 -> In y l2 -> R x y).
Proof.
  induction l1 as [|a l1 IH]; simpl; intros H.
  - split; [exact H | intros x y []].
  - apply StronglySorted_inv in H as [H Ha].
    destruct (IH H) as [H2 Hc]. split; [exact H2|].
    intros x y [<-|Hx] Hy.
    + rewrite Forall_forall in Ha. apply Ha, in_or_app. now right.
    + now apply Hc.
Qed.

(** With distinct timestamps the order is strict. *)
Lemma sorted_distinct_strict (l : list t) :
  StronglySorted tsle l -> NoDup (map timestamp l) ->
  StronglySorted tslt l.
Proof.
  induction 1 as [|x l Hl IH Hx]; simpl; intros Hnd; [constructor|].
  inversion Hnd as [|? ? Hnotin Hnd']; subst.
  constructor; [now apply IH|].
  apply Forall_forall. intros y Hy.
  rewrite Forall_forall in Hx. specialize (Hx y Hy).
  unfold tsle in Hx. unfold tslt.
  assert (timestamp x <> timestamp y)
    by (intros E; apply Hnotin; rewrite E; now apply in_map).
  lia.
Qed.

(** [slice(-30)] of a list of 35 elements drops the first five. *)
Lemma slice_last_30 (l : list t) :
  List.length l = 35%nat -> slice (-30) l = skipn 5 l.
Proof. intros H. unfold slice. rewrite H. reflexivity. Qed.

Lemma increasing_bound (a : Z) (l : list Z) :
  increasing (a :: l) = true -> Forall (fun b => a < b)%Z l.
Proof.
  revert a. induction l as [|b l IH]; intros a H; [constructor|].
  simpl in H. apply andb_prop in H as [Hab H].
  apply Z.ltb_lt in Hab. constructor; [exact Hab|].
  eapply Forall_impl; [|apply (IH b H)]. intros z Hz; simpl in Hz; lia.
Qed.

Lemma increasing_NoDup (l : list Z) : increasing l = true -> NoDup l.
Proof.
  induction l as [|a l IH]; intros H; [constructor|].
  constructor.
  - intros Hin. apply increasing_bound in H.
    rewrite Forall_forall in H. specialize (H a Hin). lia.
  - apply IH. destruct l as [|b l]; [reflexivity|].
    simpl in H. now apply andb_prop in H as [_ H].
Qed.

End WindowFacts.

(** C5, as stated, fails: the claim speaks of the samples of any one
    deviceId, but the listener keeps those of [thermostat-1] only.
    [lightSamples] holds 35 samples of [light-1] with strictly
    increasing timestamps, and the window computed from it is empty:
    it holds none of them, not the 30 most recent. *)
Lemma other_device_has_no_window :
  List.length
    (filter (fun d => HistorySample.deviceId d =? "light-1") lightSamples)
    = 35%nat
  /\ increasing (map HistorySample.timestamp lightSamples) = true
  /\ historyWindow lightSamples = [].
Proof. repeat split; reflexivity. Qed.

(** C5, amended: when the snapshot holds 35 samples of [thermostat-1],
    the one deviceId for which the listener computes a window, and
    their timestamps are pairwise
    distinct (as they are when strictly increasing), in whatever order
    and among whatever samples of other devices the snapshot lists them,
    the window has exactly 30 samples in strictly ascending timestamp
    order, and the 35 samples split into the window and five older
    samples, each older than every sample of the window. *)
Theorem window_keeps_latest_30 (data : list HistorySample.t) :
  List.length (filter isThermostat1 data) = 35%nat ->
  NoDup (map HistorySample.timestamp (filter isThermostat1 data)) ->
  List.length (historyWindow data) = 30%nat
  /\ StronglySorted tslt (historyWindow data)
  /\ exists older,
       List.length older = 5%nat
       /\ Permutation (filter isThermostat1 data)
                      (older ++ historyWindow data)%list
       /\ (forall o s, In o older -> In s (historyWindow data) ->
             (HistorySample.timestamp o < HistorySample.timestamp s)%Z).
Proof.
  intros Hlen Hnd.
  set (F := filter isThermostat1 (sort byTimestamp data)).
  assert (HP : Permutation F (filter isThermostat1 data))
    by apply filter_perm, sort_perm.
  assert (HlenF : List.length F = 35%nat)
    by (rewrite (Permutation_length HP); exact Hlen).
  assert (HndF : NoDup (map HistorySample.timestamp F)).
  { eapply Permutation_NoDup; [|exact Hnd].
    apply Permutation_map, Permutation_sym, HP. }
  assert (HS : StronglySorted tslt F).
  { apply sorted_distinct_strict; [|exact HndF].
    apply filter_sorted, sort_sorted. }
  assert (HW : historyWindow data = skipn 5 F)
    by (unfold historyWindow; fold F; now apply slice_last_30).
  rewrite HW.
  rewrite <- (firstn_skipn 5 F) in HS.
  apply sorted_app_inv in HS as [HS2 Hcross].
  split; [rewrite length_skipn, HlenF; reflexivity|].
  split; [exact HS2|].
  exists (firstn 5 F). split; [|split].
  - rewrite length_firstn, HlenF. reflexivity.
  - rewrite firstn_skipn. now apply Permutation_sym.
  - exact Hcross.
Qed.

Lemma window_keeps_latest_30_witness :
  List.length (historyWindow minuteSamples) = 30%nat
  /\ map HistorySample.timestamp (historyWindow minuteSamples)
     = map (fun i => 60000 * Z.of_nat i)%Z (seq 5 30).
Proof.
  split; [|reflexivity].
  apply (window_keeps_latest_30 minuteSamples).
  - reflexivity.
  - eapply Permutation_NoDup;
      [apply Permutation_sym, Permutation_rev|].
    apply increasing_NoDup. reflexivity.
Defined.

(* ================================================================== *)
(** * Further properties *)

(** ** The history window in general *)

Section WindowShape.

Import HistorySample.

Lemma insert_front (x : t) (l : list t) :
  Forall (tsle x) l -> insert byTimestamp x l = x :: l.
Proof.
  intros H. destruct l as [|y l]; [reflexivity|].
  simpl. inversion H as [|? ? Hxy _]; subst.
  unfold tsle in Hxy. unfold byTimestamp.
  destruct (timestamp x - timestamp y <=? 0)%Z eqn:E; [reflexivity|].
  apply Z.leb_gt in E. lia.
Qed.

(** Filtering commutes with insertion into a sorted list. *)
Lemma filter_insert (f : t -> bool) (x : t) (l : list t) :
  StronglySorted tsle l ->
  filter f (insert byTimestamp x l) =
  if f x then insert byTimestamp x (filter f l) else filter f l.
Proof.
  induction 1 as [|y l Hl IH Hy].
  - simpl. destruct (f x); reflexivity.
  - cbn [insert]. destruct (byTimestamp x y <=? 0)%Z eqn:E.
    + cbn [filter]. destruct (f x) eqn:Fx; [|reflexivity].
      symmetry. apply (insert_front x (filter f (y :: l))).
      apply Forall_forall. intros z Hz. apply filter_In in Hz as [Hz _].
      apply Z.leb_le in E. unfold byTimestamp in E. unfold tsle.
      destruct Hz as [<-|Hz]; [lia|].
      rewrite Forall_forall in Hy. specialize (Hy z Hz).
      unfold tsle in Hy. lia.
    + cbn [filter]. rewrite IH.
      destruct (f y), (f x); try reflexivity.
      cbn [insert]. now rewrite E.
Qed.

Lemma filter_sort (f : t -> bool) (l : list t) :
  filter f (sort byTimestamp l) = sort byTimestamp (filter f l).
Proof.
  induction l as [|x l IH]; [reflexivity|].
  simpl. rewrite filter_insert by apply sort_sorted.
  rewrite IH. destruct (f x); reflexivity.
Qed.

(** Two lists in strict timestamp order with the same elements are the
    same list. *)
Lemma strict_order_unique (l1 l2 : list t) :
  StronglySorted tslt l1 -> StronglySorted tslt l2 ->
  Permutation l1 l2 -> l1 = l2.
Proof.
  intros H1. revert l2.
  induction H1 as [|a l1 Hl1 IH Ha]; intros l2 H2 HP.
  - apply Permutation_nil in HP. now subst.
  - destruct l2 as [|b l2].
    { apply Permutation_sym, Permutation_nil in HP. discriminate. }
    apply StronglySorted_inv in H2 as [H2 Hb].
    rewrite Forall_forall in Ha, Hb.
    assert (Hab : a = b).
    { assert (Ia : In a (b :: l2))
        by (eapply Permutation_in; [exact HP | now left]).
      assert (Ib : In b (a :: l1))
        by (eapply Permutation_in;
            [apply Permutation_sym; exact HP | now left]).
      destruct Ia as [E|Ia]; [now symmetry|].
      destruct Ib as [E|Ib]; [exact E|].
      specialize (Ha b Ib). specialize (Hb a Ia).
      unfold tslt in Ha, Hb. lia. }
    subst b. f_equal. apply IH; [exact H2|].
    now apply Permutation_cons_inv in HP.
Qed.

Lemma slice_suffix (l : list t) :
  slice (-30) l = skipn (List.length l - 30) l.
Proof. unfold slice. f_equal. simpl. lia. Qed.

End WindowShape.

(** X1: for every snapshot the window holds the thermostat samples only,
    at most 30 of them (all of them when there are fewer), in ascending
    timestamp order, and every thermostat sample left out is at most as
    recent as every sample kept. *)
Theorem window_shape (data : list HistorySample.t) :
  List.length (historyWindow data)
    = Nat.min 30 (List.length (filter isThermostat1 data))
  /\ StronglySorted tsle (historyWindow data)
  /\ exists older,
       Permutation (filter isThermostat1 data)
                   (older ++ historyWindow data)%list
       /\ (forall o s, In o older -> In s (historyWindow data) -> tsle o s).
Proof.
  set (F := filter isThermostat1 (sort byTimestamp data)).
  assert (HP : Permutation F (filter isThermostat1 data))
    by apply filter_perm, sort_perm.
  assert (HS : StronglySorted tsle F) by apply filter_sorted, sort_sorted.
  assert (HW : historyWindow data = skipn (List.length F - 30) F)
    by (unfold historyWindow; fold F; apply slice_suffix).
  rewrite HW.
  rewrite <- (firstn_skipn (List.length F - 30) F) in HS.
  apply sorted_app_inv in HS as [HS2 Hcross].
  split; [|split; [exact HS2|]].
  - rewrite length_skipn, <- (Permutation_length HP). lia.
  - exists (firstn (List.length F - 30) F). split; [|exact Hcross].
    rewrite firstn_skipn. now apply Permutation_sym.
Qed.

(** X2: samples of other devices never influence the window: the window
    of a snapshot is the window of its thermostat samples alone. *)
Theorem window_ignores_other_devices (data : list HistorySample.t) :
  historyWindow data = historyWindow (filter isThermostat1 data).
Proof.
  unfold historyWindow. rewrite !filter_sort. f_equal. f_equal.
  induction data as [|x data IH]; [reflexivity|].
  simpl. destruct (isThermostat1 x) eqn:E; simpl; rewrite ?E;
    [f_equal|]; exact IH.
Qed.

(** X3: when the thermostat samples have pairwise distinct timestamps,
    the window does not depend on the order in which the snapshot lists
    its documents. *)
Theorem window_ignores_snapshot_order (data data' : list HistorySample.t) :
  Permutation data data' ->
  NoDup (map HistorySample.timestamp (filter isThermostat1 data)) ->
  historyWindow data = historyWindow data'.
Proof.
  intros HP Hnd. unfold historyWindow. rewrite !filter_sort. f_equal.
  assert (HPf : Permutation (filter isThermostat1 data)
                            (filter isThermostat1 data'))
    by now apply filter_perm.
  apply strict_order_unique.
  - apply sorted_distinct_strict; [apply sort_sorted|].
    eapply Permutation_NoDup; [|exact Hnd].
    apply Permutation_map, Permutation_sym, sort_perm.
  - apply sorted_distinct_strict; [apply sort_sorted|].
    eapply Permutation_NoDup; [|exact Hnd].
    apply Permutation_map.
    eapply Permutation_trans; [exact HPf | apply Permutation_sym, sort_perm].
  - eapply Permutation_trans; [apply sort_perm|].
    eapply Permutation_trans; [exact HPf | apply Permutation_sym, sort_perm].
Qed.

Lemma window_ignores_snapshot_order_witness :
  historyWindow minuteSamples = historyWindow (rev minuteSamples).
Proof.
  apply (window_ignores_snapshot_order minuteSamples (rev minuteSamples)).
  - apply Permutation_rev.
  - eapply Permutation_NoDup;
      [apply Permutation_sym, Permutation_rev|].
    apply increasing_NoDup. reflexivity.
Defined.

(* ================================================================== *)
(** ** What a pass depends on *)

Lemma evaluate_ext (a u : string) (D D' : list Device.t) (R : list Rule.t) :
  (forall r, In r R -> fires D r = fires D' r) ->
  evaluate a u D R = evaluate a u D' R.
Proof.
  intros H. rewrite !evaluate_spec. f_equal.
  induction R as [|r R IH]; [reflexivity|].
  simpl. rewrite !ruleBody_spec, (H r (or_introl eq_refl)).
  f_equal. apply IH. intros r' Hr'. apply H. now right.
Qed.

Lemma findDevice_other (k X f : string) (v : JsValue) (D : list Device.t) :
  k <> X -> findDevice k (applyUpdate X f v D) = findDevice k D.
Proof.
  intros Hk. rewrite findDevice_applyUpdate.
  destruct (findDevice k D) as [d|] eqn:E; [|reflexivity].
  apply findDevice_id in E. simpl.
  apply String.eqb_neq in Hk. now rewrite E, Hk.
Qed.

Lemma findDevice_same (X f : string) (v : JsValue) (D : list Device.t) :
  findDevice X (applyUpdate X f v D) =
  option_map (Device.set f v) (findDevice X D).
Proof.
  rewrite findDevice_applyUpdate.
  destruct (findDevice X D) as [d|] eqn:E; [|reflexivity].
  apply findDevice_id in E. simpl. now rewrite E, String.eqb_refl.
Qed.

Lemma set_keeps_isOn (f : string) (v : JsValue) (d : Device.t) :
  f <> "isOn" -> Device.isOn (Device.set f v d) = Device.isOn d.
Proof.
  intros H. apply String.eqb_neq in H. unfold Device.set. rewrite H.
  repeat match goal with |- context [if ?c then _ else _] => destruct c end;
    reflexivity.
Qed.

Lemma set_keeps_currentTemp (f : string) (v : JsValue) (d : Device.t) :
  f <> "currentTemp" ->
  Device.currentTemp (Device.set f v d) = Device.currentTemp d.
Proof.
  intros H. apply String.eqb_neq in H. unfold Device.set.
  destruct (f =? "isOn"); [reflexivity|]. rewrite H.
  repeat match goal with |- context [if ?c then _ else _] => destruct c end;
    reflexivity.
Qed.

(** A rule's outcome survives a write that neither its trigger test nor
    its guard can see. *)
Lemma fires_applyUpdate (X f : string) (v : JsValue) (D : list Device.t)
    (r : Rule.t) :
  (Rule.triggerDevice r = X ->
   forall td, triggerHolds (Device.set f v td) r = triggerHolds td r) ->
  (Rule.actionDevice r = X -> f <> "isOn") ->
  fires (applyUpdate X f v D) r = fires D r.
Proof.
  intros Ht Ha. unfold fires.
  assert (Et : findDevice (Rule.triggerDevice r) (applyUpdate X f v D) = None
               /\ findDevice (Rule.triggerDevice r) D = None
            \/ exists td td',
                 findDevice (Rule.triggerDevice r) (applyUpdate X f v D)
                   = Some td'
                 /\ findDevice (Rule.triggerDevice r) D = Some td
                 /\ triggerHolds td' r = triggerHolds td r).
  { destruct (String.eqb_spec (Rule.triggerDevice r) X) as [E|E].
    - rewrite E, findDevice_same.
      destruct (findDevice X D) as [td|]; [|now left].
      right. exists td, (Device.set f v td). simpl. auto.
    - rewrite findDevice_other by exact E.
      destruct (findDevice (Rule.triggerDevice r) D) as [td|]; [|now left].
      right. exists td, td. auto. }
  destruct Et as [[-> ->]|(td & td' & -> & -> & ->)]; [reflexivity|].
  f_equal.
  destruct (String.eqb_spec (Rule.actionDevice r) X) as [E|E].
  - rewrite E, findDevice_same.
    destruct (findDevice X D) as [ad|]; [|reflexivity].
    simpl. now rewrite set_keeps_isOn by auto.
  - now rewrite findDevice_other by exact E.
Qed.

Lemma triggerHolds_other_field (f : string) (v : JsValue) (td : Device.t)
    (r : Rule.t) :
  f <> "isOn" -> f <> "currentTemp" ->
  triggerHolds (Device.set f v td) r = triggerHolds td r.
Proof.
  intros H1 H2. unfold triggerHolds.
  now rewrite set_keeps_isOn, set_keeps_currentTemp.
Qed.

Lemma triggerHolds_currentTemp (v : JsValue) (td : Device.t) (r : Rule.t) :
  Rule.triggerCondition r <> ">" -> Rule.triggerCondition r <> "<" ->
  triggerHolds (Device.set "currentTemp" v td) r = triggerHolds td r.
Proof.
  intros H1 H2. apply String.eqb_neq in H1, H2.
  unfold triggerHolds. rewrite H1, H2. reflexivity.
Qed.

Lemma triggerHolds_isOn (v : JsValue) (td : Device.t) (r : Rule.t) :
  Rule.triggerCondition r <> "==" ->
  triggerHolds (Device.set "isOn" v td) r = triggerHolds td r.
Proof.
  intros H. apply String.eqb_neq in H.
  unfold triggerHolds. rewrite H. reflexivity.
Qed.

(** X4: moving a slider never changes what the rules do: after
    [handleSliderChange] has written [targetTemp] or [brightness], the
    two keys the cards pass to it, the pass issues the same effects as
    before, whichever device and value the write has. *)
Theorem slider_leaves_rules_alone (a u : string) (D : list Device.t)
    (R : list Rule.t) (id key : string) (value : JsValue) :
  key = "targetTemp" \/ key = "brightness" ->
  evaluate a u
    (applyEffects (Run.effects (handleSliderChange a u id key value)) D) R
  = evaluate a u D R.
Proof.
  intros Hkey. simpl. apply evaluate_ext. intros r _.
  apply fires_applyUpdate.
  - intros _ td. apply triggerHolds_other_field;
      destruct Hkey as [-> | ->]; discriminate.
  - intros _. destruct Hkey as [-> | ->]; discriminate.
Qed.

(** Raising the thermostat's target above its reading does not stop the
    rule that compares the reading. *)
Lemma slider_leaves_rules_alone_witness :
  evaluate "app" "user"
    (applyEffects
       (Run.effects (handleSliderChange "app" "user" "thermostat-1"
                       "targetTemp" (num 85)))
       mockDevices)
    conflictingRules
  = evaluate "app" "user" mockDevices conflictingRules.
Proof.
  apply (slider_leaves_rules_alone "app" "user" mockDevices conflictingRules
           "thermostat-1" "targetTemp" (num 85)).
  left; reflexivity.
Defined.

(** X5: a write to a device that no rule names, as trigger or as action
    device, leaves the pass unchanged, whatever field it sets. *)
Theorem unreferenced_device_is_inert (a u : string) (D : list Device.t)
    (R : list Rule.t) (X f : string) (v : JsValue) :
  (forall r, In r R ->
             Rule.triggerDevice r <> X /\ Rule.actionDevice r <> X) ->
  evaluate a u (applyUpdate X f v D) R = evaluate a u D R.
Proof.
  intros H. apply evaluate_ext. intros r Hr.
  destruct (H r Hr) as [Ht Ha].
  apply fires_applyUpdate; intros E; contradiction.
Qed.

Lemma unreferenced_device_is_inert_witness :
  evaluate "app" "user"
    (applyUpdate "light-3" "isOn" (JBool false) mockDevices) conflictingRules
  = evaluate "app" "user" mockDevices conflictingRules.
Proof.
  apply (unreferenced_device_is_inert "app" "user" mockDevices
           conflictingRules "light-3" "isOn" (JBool false)).
  intros r Hr. simpl in Hr.
  destruct Hr as [<-|[<-|[]]]; split; discriminate.
Defined.

(** X6: a simulator tick can change the outcome of a pass only through
    rules that compare [thermostat-1]'s reading: when no rule triggered
    by [thermostat-1] uses [>] or [<], the pass after the tick's writes
    issues the same effects as before. *)
Theorem tick_moves_only_comparisons (a u : string) (D : list Device.t)
    (R : list Rule.t) (now : Date) (random : number) :
  (forall r, In r R -> Rule.triggerDevice r = "thermostat-1" ->
             Rule.triggerCondition r <> ">"
             /\ Rule.triggerCondition r <> "<") ->
  evaluate a u
    (applyEffects (Run.effects (simulatorTick a u D now random)) D) R
  = evaluate a u D R.
Proof.
  intros H. unfold simulatorTick.
  destruct ((Z.rem (getMinutes now) 1 =? 0)%Z && (getSeconds now =? 0)%Z);
    [|reflexivity].
  simpl. apply evaluate_ext. intros r Hr.
  apply fires_applyUpdate; [|discriminate].
  intros E td. destruct (H r Hr E). now apply triggerHolds_currentTemp.
Qed.

Lemma tick_moves_only_comparisons_witness :
  evaluate "app" "user"
    (applyEffects
       (Run.effects (simulatorTick "app" "user" mockDevices
                       (mkDate 7 0 60000) (of_dyadic 3 2)))
       mockDevices)
    [onOffRule]
  = evaluate "app" "user" mockDevices [onOffRule].
Proof.
  apply (tick_moves_only_comparisons "app" "user" mockDevices [onOffRule]
           (mkDate 7 0 60000) (of_dyadic 3 2)).
  intros r [<-|[]] E. discriminate E.
Defined.

(** *** The order of the device list *)

Lemma unique_by_id (D : list Device.t) (x y : Device.t) :
  NoDup (map Device.id D) -> In x D -> In y D ->
  Device.id x = Device.id y -> x = y.
Proof.
  induction D as [|d D IH]; simpl; intros Hnd Hx Hy E; [contradiction|].
  inversion Hnd as [|? ? Hnotin Hnd']; subst.
  destruct Hx as [<-|Hx], Hy as [<-|Hy]; auto.
  - exfalso. apply Hnotin. rewrite E. now apply in_map.
  - exfalso. apply Hnotin. rewrite <- E. now apply in_map.
Qed.

Lemma find_perm_unique (p : Device.t -> bool) (l l' : list Device.t) :
  Permutation l l' ->
  (forall x y, In x l -> In y l -> p x = true -> p y = true -> x = y) ->
  find p l = find p l'.
Proof.
  induction 1 as [|x l l' HP IH|x y l|l l' l'' HP1 IH1 HP2 IH2]; intros Hu.
  - reflexivity.
  - simpl. destruct (p x); [reflexivity|].
    apply IH. intros; apply Hu; simpl; auto.
  - simpl. destruct (p x) eqn:Px, (p y) eqn:Py; try reflexivity.
    f_equal. apply Hu; simpl; auto.
  - rewrite IH1 by exact Hu. apply IH2.
    intros x y Hx Hy. apply Hu; eapply Permutation_in;
      try (apply Permutation_sym; exact HP1); assumption.
Qed.

(** X7: with unique device ids, the pass does not depend on the order
    in which the snapshot lists the devices. *)
Theorem device_order_is_irrelevant (a u : string) (D D' : list Device.t)
    (R : list Rule.t) :
  NoDup (map Device.id D) -> Permutation D D' ->
  evaluate a u D R = evaluate a u D' R.
Proof.
  intros Hnd HP.
  assert (Hf : forall k, findDevice k D = findDevice k D').
  { intros k. unfold findDevice. apply find_perm_unique; [exact HP|].
    intros x y Hx Hy Px Py. apply String.eqb_eq in Px, Py.
    apply (unique_by_id D); congruence. }
  apply evaluate_ext. intros r _. unfold fires. now rewrite !Hf.
Qed.

Lemma device_order_is_irrelevant_witness :
  evaluate "app" "user" mockDevices conflictingRules
  = evaluate "app" "user" (rev mockDevices) conflictingRules.
Proof.
  apply (device_order_is_irrelevant "app" "user" mockDevices
           (rev mockDevices) conflictingRules).
  - simpl. repeat constructor; simpl; intuition discriminate.
  - apply Permutation_rev.
Defined.

(* ================================================================== *)
(** ** Writes and notifications *)

Lemma firing_counts (a u : string) (l : list Rule.t) :
  List.length (filter isWrite (flat_map (firing a u) l)) = List.length l
  /\ List.length (filter isFeedback (flat_map (firing a u) l))
     = List.length l.
Proof.
  induction l as [|r l [IH1 IH2]]; [split; reflexivity|].
  simpl. now rewrite IH1, IH2.
Qed.

(** X8: the effects of a pass are, for a subsequence of the rules taken
    in rule order, one write to the rule's action device followed by one
    success notification naming the rule, and nothing else; so a pass
    issues as many notifications as writes, and at most one of each per
    rule. *)
Theorem one_notification_per_write (a u : string) (D : list Device.t)
    (R : list Rule.t) :
  exists sel : Rule.t -> bool,
    Run.effects (evaluate a u D R) =
      flat_map
        (fun r =>
           [ UpdateDoc (DevicesDoc a u (Rule.actionDevice r)) "isOn"
               (actionValueOf r);
             SetFeedback ("Rule triggered: " ++ Rule.name r) "success" ])
        (filter sel R)
    /\ List.length (filter isWrite (Run.effects (evaluate a u D R)))
       = List.length (filter isFeedback (Run.effects (evaluate a u D R)))
    /\ (List.length (filter isWrite (Run.effects (evaluate a u D R)))
        <= List.length R)%nat.
Proof.
  exists (fires D).
  assert (E : Run.effects (evaluate a u D R)
              = flat_map (firing a u) (filter (fires D) R)).
  { rewrite evaluate_spec. simpl.
    induction R as [|r R IH]; [reflexivity|].
    simpl. rewrite ruleBody_spec, IH.
    destruct (fires D r); reflexivity. }
  split; [exact E|]. rewrite E.
  destruct (firing_counts a u (filter (fires D) R)) as [-> ->].
  split; [reflexivity | apply filter_length_le].
Qed.

(* ================================================================== *)
(** ** A value that never settles *)

Lemma fires_split (D : list Device.t) (r : Rule.t) :
  fires D r =
  match findDevice (Rule.triggerDevice r) D with
  | Some td => triggerHolds td r
  | None => false
  end
  && match findDevice (Rule.actionDevice r) D with
     | Some ad => Js.strict_neq (Device.isOn ad) (actionValueOf r)
     | None => false
     end.
Proof.
  unfold fires. destruct (findDevice (Rule.triggerDevice r) D); reflexivity.
Qed.

(** The trigger test of a rule after a write its test cannot see. *)
Lemma trigger_after_update (X f : string) (v : JsValue) (D : list Device.t)
    (r : Rule.t) :
  (Rule.triggerDevice r = X ->
   forall td, triggerHolds (Device.set f v td) r = triggerHolds td r) ->
  match findDevice (Rule.triggerDevice r) (applyUpdate X f v D) with
  | Some td => triggerHolds td r
  | None => false
  end
  = match findDevice (Rule.triggerDevice r) D with
    | Some td => triggerHolds td r
    | None => false
    end.
Proof.
  intros Ht. destruct (String.eqb_spec (Rule.triggerDevice r) X) as [E|E].
  - rewrite E, findDevice_same.
    destruct (findDevice X D) as [td|]; [|reflexivity]. simpl. now apply Ht.
  - now rewrite findDevice_other by exact E.
Qed.

Lemma nan_write_refires (D : list Device.t) (r : Rule.t) :
  actionValueOf r = JNum NaN ->
  Rule.triggerDevice r <> Rule.actionDevice r
  \/ Rule.triggerCondition r <> "==" ->
  fires D r = true ->
  fires (applyUpdate (Rule.actionDevice r) "isOn" (JNum NaN) D) r = true.
Proof.
  intros Ev Hsep F. rewrite fires_split in F |- *.
  apply andb_prop in F as [Ft Fa].
  rewrite trigger_after_update, Ft.
  - rewrite findDevice_same.
    destruct (findDevice (Rule.actionDevice r) D); [|discriminate].
    simpl. rewrite Ev. reflexivity.
  - intros E td. destruct Hsep as [H|H]; [contradiction|].
    now apply triggerHolds_isOn.
Qed.

(** X9: a rule whose [actionType] is not [toggle] and whose
    [actionValue] does not parse writes [NaN] into [isOn], and its guard
    never closes: if it issues its effects on [D] (and its trigger does
    not read the [isOn] it writes), it issues the same write and
    notification again on the snapshot in which that write has landed,
    however many times it has landed. *)
Theorem unparsable_action_refires (a u : string) (D : list Device.t)
    (r : Rule.t) (n : nat) :
  Rule.actionType r <> "toggle" ->
  is_nan (parseFloat (Rule.actionValue r)) = true ->
  Rule.triggerDevice r <> Rule.actionDevice r
  \/ Rule.triggerCondition r <> "==" ->
  Run.effects (ruleBody a u D r) <> [] ->
  Run.effects
    (ruleBody a u
       (Nat.iter n (applyUpdate (Rule.actionDevice r) "isOn" (JNum NaN)) D)
       r)
  = [ UpdateDoc (DevicesDoc a u (Rule.actionDevice r)) "isOn" (JNum NaN);
      SetFeedback ("Rule triggered: " ++ Rule.name r) "success" ].
Proof.
  intros Htype Hnan Hsep Hfire.
  assert (Ev : actionValueOf r = JNum NaN).
  { unfold actionValueOf. apply String.eqb_neq in Htype. rewrite Htype.
    now rewrite (is_nan_eq _ Hnan). }
  assert (F0 : fires D r = true).
  { rewrite ruleBody_spec in Hfire. simpl in Hfire.
    destruct (fires D r); [reflexivity | contradiction]. }
  assert (Fn : fires
                 (Nat.iter n
                    (applyUpdate (Rule.actionDevice r) "isOn" (JNum NaN)) D)
                 r = true).
  { induction n as [|n IH]; [exact F0|].
    simpl. now apply nan_write_refires. }
  rewrite ruleBody_spec, Fn. simpl. unfold firing. now rewrite Ev.
Qed.

(** A rule made with the form and the value ["on"]. *)
Lemma unparsable_action_refires_witness :
  Run.effects
    (ruleBody "app" "user"
       (Nat.iter 3 (applyUpdate "fan-1" "isOn" (JNum NaN)) mockDevices)
       (Rule.mk "rule-11" "Fan on" "thermostat-1" ">" "70" "fan-1" "" "on"))
  = [ UpdateDoc (DevicesDoc "app" "user" "fan-1") "isOn" (JNum NaN);
      SetFeedback "Rule triggered: Fan on" "success" ].
Proof.
  apply (unparsable_action_refires "app" "user" mockDevices
           (Rule.mk "rule-11" "Fan on" "thermostat-1" ">" "70"
              "fan-1" "" "on") 3).
  - discriminate.
  - reflexivity.
  - left; discriminate.
  - vm_compute; discriminate.
Defined.

(* ================================================================== *)
(** ** A rule against the user *)



(* ================================================================== *)
(** ** When the rules come to rest *)

Lemma set_isOn_same (d : Device.t) :
  Device.set "isOn" (Device.isOn d) d = d.
Proof. destruct d; reflexivity. Qed.

Lemma set_isOn_twice (v w : JsValue) (d : Device.t) :
  Device.set "isOn" w (Device.set "isOn" v d) = Device.set "isOn" w d.
Proof. destruct d; reflexivity. Qed.








(* ================================================================== *)
(** ** The simulator's readings *)

(** X12: whatever the devices and the drawn change, the reading of a
    tick is a number that is neither [NaN] nor zero: a sum that comes
    out as exactly 0 is replaced by 75 like an unknown one. *)
Theorem reading_is_never_nan_or_zero (D : list Device.t) (delta : number) :
  exists n,
    newTemp D delta = JNum n /\ is_nan n = false /\ is_zero n = false.
Proof.
  unfold newTemp, Js.or, Js.plus.
  generalize
    (add (Js.toNumber
            (optProp (findDevice "thermostat-1" D) Device.currentTemp))
         (Js.toNumber (JNum delta))).
  intros s. unfold Js.truthy.
  destruct (is_nan s || is_zero s) eqn:E; simpl.
  - exists (of_Z 75). repeat split.
  - exists s. apply orb_false_elim in E as [E1 E2]. auto.
Qed.

(* ================================================================== *)
(** ** The on/off button *)

Lemma set_type (f : string) (v : JsValue) (d : Device.t) :
  Device.type (Device.set f v d) = Device.type d.
Proof.
  unfold Device.set.
  repeat match goal with |- context [if ?c then _ else _] => destruct c end;
    reflexivity.
Qed.

Lemma deviceButton_inv (a u : string) (d : Device.t) (btn : ToggleButton) :
  deviceButton a u d = Some btn ->
  btn = toggleButton a u d
  /\ (Device.type d = "light" \/ Device.type d = "fan").
Proof.
  unfold deviceButton, renderDeviceCard.
  destruct (Device.type d =? "thermostat"); [discriminate|].
  destruct (String.eqb_spec (Device.type d) "light") as [E|_].
  { simpl. intros H; injection H as <-. auto. }
  destruct (String.eqb_spec (Device.type d) "fan") as [E|_].
  { simpl. intros H; injection H as <-. auto. }
  destruct (Device.type d =? "humidity"); discriminate.
Qed.

Lemma deviceButton_intro (a u : string) (d : Device.t) :
  Device.type d = "light" \/ Device.type d = "fan" ->
  deviceButton a u d = Some (toggleButton a u d).
Proof.
  unfold deviceButton, renderDeviceCard. intros [E|E]; rewrite E; reflexivity.
Qed.

(** X13: a click on the on/off button of a light or fan card always
    flips the caption of that card: whatever [isOn] held before (a
    boolean, nothing, or a number a rule wrote there), the write stores
    the boolean opposite of its truthiness, and the card rendered from
    the next snapshot shows the other caption. *)
Theorem click_flips_caption (a u : string) (D : list Device.t)
    (d : Device.t) (btn : ToggleButton) :
  findDevice (Device.id d) D = Some d ->
  deviceButton a u d = Some btn ->
  exists d' btn',
    findDevice (Device.id d) (applyEffects (Run.effects (onClick btn)) D)
      = Some d'
    /\ Device.isOn d' = JBool (negb (Js.truthy (Device.isOn d)))
    /\ deviceButton a u d' = Some btn'
    /\ caption btn' = (if caption btn =? "ON" then "OFF" else "ON").
Proof.
  intros Hd Hb. apply deviceButton_inv in Hb as [-> Htype].
  exists (Device.set "isOn" (logicalNot (Device.isOn d)) d).
  exists (toggleButton a u
            (Device.set "isOn" (logicalNot (Device.isOn d)) d)).
  split; [simpl; now rewrite findDevice_same, Hd|].
  split; [reflexivity|].
  split; [apply deviceButton_intro; now rewrite set_type|].
  simpl. destruct (Js.truthy (Device.isOn d)); reflexivity.
Qed.

(** A fan whose [isOn] a rule has set to [NaN] shows OFF; one click
    makes it ON. *)
Lemma click_flips_caption_witness :
  exists d' btn',
    findDevice "fan-1"
      (applyEffects
         (Run.effects
            (handleToggle "app" "user" "fan-1" (JNum NaN)))
         (applyUpdate "fan-1" "isOn" (JNum NaN) mockDevices))
      = Some d'
    /\ Device.isOn d' = JBool true
    /\ deviceButton "app" "user" d' = Some btn'
    /\ caption btn' = "ON".
Proof.
  apply (click_flips_caption "app" "user"
           (applyUpdate "fan-1" "isOn" (JNum NaN) mockDevices)
           (Device.mk "fan-1" "Ceiling Fan" "fan" "Living Room"
              absent absent (JNum NaN) absent (num 0) absent)
           (toggleButton "app" "user"
              (Device.mk "fan-1" "Ceiling Fan" "fan" "Living Room"
                 absent absent (JNum NaN) absent (num 0) absent)));
    reflexivity.
Defined.

Lemma applyUpdate_fixed (X : string) (v : JsValue) (D : list Device.t) :
  (forall e, In e D -> Device.id e = X -> Device.isOn e = v) ->
  applyUpdate X "isOn" v D = D.
Proof.
  intros H. unfold applyUpdate. rewrite <- (map_id D) at 2.
  apply map_ext_in. intros e He.
  destruct (String.eqb_spec (Device.id e) X) as [E|_]; [|reflexivity].
  rewrite <- (H e He E). apply set_isOn_same.
Qed.

Lemma applyUpdate_twice (X : string) (v w : JsValue) (D : list Device.t) :
  applyUpdate X "isOn" w (applyUpdate X "isOn" v D) = applyUpdate X "isOn" w D.
Proof.
  unfold applyUpdate. rewrite map_map. apply map_ext. intros e.
  destruct (Device.id e =? X) eqn:E.
  - now rewrite set_id, E, set_isOn_twice.
  - now rewrite E.
Qed.

(** X14: with unique device ids, clicking the button of a device whose
    [isOn] is a boolean and then clicking it again (the second click
    sees the flipped state) gives back the device list exactly. *)
Theorem two_clicks_restore (a u : string) (D : list Device.t)
    (d : Device.t) (b : bool) :
  NoDup (map Device.id D) ->
  In d D ->
  Device.isOn d = JBool b ->
  applyEffects
    (Run.effects (handleToggle a u (Device.id d) (JBool (negb b))))
    (applyEffects
       (Run.effects (handleToggle a u (Device.id d) (JBool b))) D)
  = D.
Proof.
  intros Hnd Hin Hon. simpl. rewrite applyUpdate_twice.
  unfold logicalNot. simpl. rewrite negb_involutive.
  apply applyUpdate_fixed. intros e He E.
  now rewrite (unique_by_id D e d Hnd He Hin E).
Qed.

Lemma two_clicks_restore_witness :
  applyEffects
    (Run.effects (handleToggle "app" "user" "light-2" (JBool true)))
    (applyEffects
       (Run.effects (handleToggle "app" "user" "light-2" (JBool false)))
       mockDevices)
  = mockDevices.
Proof.
  apply (two_clicks_restore "app" "user" mockDevices
           (Device.mk "light-2" "Kitchen Light" "light" "Kitchen"
              absent absent (JBool false) (num 50) absent absent) false).
  - simpl. repeat constructor; simpl; intuition discriminate.
  - simpl. auto.
  - reflexivity.
Defined.

(* ================================================================== *)
(** ** Sessions with the rule form *)

Lemma onChange_actionType (f : FormField) (value : string) (nr : NewRule) :
  nr_actionType (onChange f value nr) = nr_actionType nr.
Proof. destruct f; reflexivity. Qed.

(** The state and the effects of one submission. *)
Lemma submit_step (a u : string) (s : FormState) (ok : bool) :
  formStep a u s (Submit ok) =
  if passesCheck (fs_newRule s) then
    if ok then
      (mkFormState blankRule false ("Rule created successfully!", "success"),
       [ PreventDefault;
         AddDoc (RulesCollection a u) (RuleData (fs_newRule s));
         SetFeedback "Rule created successfully!" "success";
         SetShowRuleModal false;
         SetNewRule blankRule ])
    else
      (mkFormState (fs_newRule s) (fs_showRuleModal s)
         ("Failed to create rule.", "error"),
       [ PreventDefault;
         AddDoc (RulesCollection a u) (RuleData (fs_newRule s));
         ConsoleError "Error adding rule: ";
         SetFeedback "Failed to create rule." "error" ])
  else
    (mkFormState (fs_newRule s) (fs_showRuleModal s)
       ("All fields are required.", "error"),
     [ PreventDefault; SetFeedback "All fields are required." "error" ]).
Proof.
  unfold formStep, handleRuleSubmit, passesCheck.
  destruct (emptyStr (nr_name (fs_newRule s))
            || emptyStr (nr_triggerDevice (fs_newRule s))
            || emptyStr (nr_actionDevice (fs_newRule s))); simpl;
    [reflexivity|].
  destruct ok; reflexivity.
Qed.

Lemma formRun_actionType (a u : string) (evs : list FormEvent) :
  forall s,
    nr_actionType (fs_newRule s) = "" ->
    nr_actionType (fs_newRule (fst (formRun a u s evs))) = ""
    /\ (forall c nr,
          In (AddDoc c (RuleData nr)) (snd (formRun a u s evs)) ->
          nr_actionType nr = "").
Proof.
  induction evs as [|ev evs IH]; intros s Hs.
  - split; [exact Hs | intros c nr []].
  - cbn [formRun].
    destruct (formStep a u s ev) as [s1 es1] eqn:E1.
    destruct (formRun a u s1 evs) as [s2 es2] eqn:E2.
    assert (H1 : nr_actionType (fs_newRule s1) = ""
                 /\ forall c nr, In (AddDoc c (RuleData nr)) es1 ->
                                 nr_actionType nr = "").
    { destruct ev as [| |f value|ok].
      - injection E1 as <- <-. split; [exact Hs | intros c nr []].
      - injection E1 as <- <-. split; [exact Hs | intros c nr []].
      - injection E1 as <- <-. split; [|intros c nr []].
        simpl. now rewrite onChange_actionType.
      - rewrite submit_step in E1.
        destruct (passesCheck (fs_newRule s)); [destruct ok|];
          injection E1 as <- <-; (split; [first [exact Hs | reflexivity]|]);
          intros c nr Hin; simpl in Hin;
          repeat (destruct Hin as [Hin|Hin]; try discriminate);
          try contradiction; injection Hin as _ <-; exact Hs. }
    destruct H1 as [Hs1 Hes1].
    specialize (IH s1 Hs1). rewrite E2 in IH. destruct IH as [Hs2 Hes2].
    split; [exact Hs2|].
    intros c nr Hin. apply in_app_or in Hin as [Hin|Hin]; eauto.
Qed.

(** X15: the modal has no input for [actionType], so in every session
    with the form, whatever is opened, typed, cancelled or submitted,
    each rule written to the rules collection has an empty
    [actionType]; read back by the rules listener it is never a
    [toggle] rule, and the value it writes is the number
    [parseFloat(actionValue)]. *)
Theorem form_rules_are_never_toggle (a u : string) (evs : list FormEvent)
    (c : CollectionRef) (nr : NewRule) (docId : string) :
  In (AddDoc c (RuleData nr)) (snd (formRun a u initialFormState evs)) ->
  nr_actionType nr = ""
  /\ actionValueOf (ruleOfDoc docId nr)
     = JNum (parseFloat (nr_actionValue nr)).
Proof.
  intros H.
  destruct (formRun_actionType a u evs initialFormState eq_refl) as [_ Hes].
  pose proof (Hes c nr H) as E. split; [exact E|].
  unfold actionValueOf, ruleOfDoc. simpl. now rewrite E.
Qed.

Lemma form_rules_are_never_toggle_witness :
  actionValueOf
    (ruleOfDoc "doc-1"
       (mkNewRule "Fan on" "thermostat-1" ">" "75" "fan-1" "" "on"))
  = JNum (parseFloat "on").
Proof.
  apply (form_rules_are_never_toggle "app" "user"
           [ OpenModal;
             Change FieldName "Fan on";
             Change FieldTriggerDevice "thermostat-1";
             Change FieldTriggerCondition ">";
             Change FieldTriggerValue "75";
             Change FieldActionDevice "fan-1";
             Change FieldActionValue "on";
             Submit true ]
           (RulesCollection "app" "user")
           (mkNewRule "Fan on" "thermostat-1" ">" "75" "fan-1" "" "on")
           "doc-1").
  vm_compute. auto.
Defined.

(** X16: a submission changes the form in one of two ways.  When the
    three checked fields are filled and the write resolves, the form is
    blanked, the modal closed and the success message shown.  In every
    other case (a checked field empty, or the write rejected) what the
    user typed and the modal stay as they are and an error message is
    shown; and a document write is attempted exactly when the check
    passes. *)
Theorem submit_keeps_input_unless_stored (a u : string) (s : FormState)
    (ok : bool) :
  fst (formStep a u s (Submit ok)) =
    (if passesCheck (fs_newRule s) && ok
     then mkFormState blankRule false
            ("Rule created successfully!", "success")
     else mkFormState (fs_newRule s) (fs_showRuleModal s)
            (if passesCheck (fs_newRule s)
             then "Failed to create rule."
             else "All fields are required.", "error"))
  /\ (In (AddDoc (RulesCollection a u) (RuleData (fs_newRule s)))
         (snd (formStep a u s (Submit ok)))
      <-> passesCheck (fs_newRule s) = true).
Proof.
  rewrite submit_step.
  destruct (passesCheck (fs_newRule s)); [destruct ok|]; simpl;
    (split; [reflexivity|]); split; intros H; auto;
    try discriminate H.
  destruct H as [H|[H|[]]]; discriminate H.
Qed.

(* ================================================================== *)
(** ** Sign-in and the gate *)

(** X17: after [initializeAppAndAuth] the ready flag is set whether or
    not the sign-in succeeded, but a user id exists only after a
    successful one; so after a rejected sign-in the rules engine effect
    never issues anything, for any devices and rules, and after a
    successful one with a non-empty uid it is exactly one pass. *)
Theorem rejected_sign_in_idles_engine (appId : string)
    (result : SignInResult) (D : list Device.t) (R : list Rule.t) :
  auth_isAuthReady (initializeAppAndAuth result initialAuthState) = true
  /\ rulesEngineEffect appId
       (auth_isAuthReady (initializeAppAndAuth result initialAuthState))
       (auth_userId (initializeAppAndAuth result initialAuthState)) D R
     = match result with
       | SignedIn uid =>
           if emptyStr uid then Run.ret tt else evaluate appId uid D R
       | SignInRejected => Run.ret tt
       end.
Proof.
  destruct result as [uid|]; simpl; split; reflexivity.
Qed.

(* ================================================================== *)
(** ** A new reading in the window *)

Lemma sorted_last_is_max (l : list HistorySample.t) (m : HistorySample.t) :
  StronglySorted tsle (l ++ [m])%list -> forall x, In x l -> tsle x m.
Proof.
  intros H x Hx. apply sorted_app_inv in H as [_ H].
  apply H; [exact Hx | now left].
Qed.

(** X18: when a tick's history document lands in a snapshot whose
    thermostat samples are all older than the tick, the window computed
    from the new snapshot ends with that reading, wherever the snapshot
    lists the new document. *)
Theorem new_reading_ends_window (a u : string) (D : list Device.t)
    (now : Date) (random : number) (doc : DocData) (docId : string)
    (s : HistorySample.t) (data data' : list HistorySample.t) :
  In (AddDoc (HistoryCollection a u) doc)
     (Run.effects (simulatorTick a u D now random)) ->
  sampleOfDoc docId doc = Some s ->
  (forall x, In x data -> isThermostat1 x = true ->
             (HistorySample.timestamp x < getTime now)%Z) ->
  Permutation data' (s :: data) ->
  HistorySample.value s = newTemp D (randomTempChange random)
  /\ exists w, historyWindow data' = (w ++ [s])%list.
Proof.
  intros Hemit Hdoc Hold HP.
  assert (Es : s = HistorySample.mk docId "thermostat-1"
                     (newTemp D (randomTempChange random)) (getTime now)).
  { unfold simulatorTick in Hemit.
    destruct ((Z.rem (getMinutes now) 1 =? 0)%Z && (getSeconds now =? 0)%Z);
      simpl in Hemit; [|contradiction].
    destruct Hemit as [H|[H|[]]]; [|discriminate].
    injection H as <-. simpl in Hdoc. now injection Hdoc as <-. }
  split; [now rewrite Es|].
  set (F := filter isThermostat1 (sort byTimestamp data')).
  assert (HinF : forall x, In x F <->
                           (x = s \/ In x data) /\ isThermostat1 x = true).
  { intros x. unfold F. rewrite filter_In. split; intros [H1 H2]; split; auto.
    - apply (Permutation_in x (sort_perm data')) in H1.
      apply (Permutation_in x HP) in H1. destruct H1; auto.
    - apply (Permutation_in x (Permutation_sym (sort_perm data'))).
      apply (Permutation_in x (Permutation_sym HP)).
      destruct H1 as [->|H1]; [now left | now right]. }
  assert (HsF : In s F) by (apply HinF; split; [now left | now rewrite Es]).
  assert (HS : StronglySorted tsle F) by apply filter_sorted, sort_sorted.
  destruct (exists_last (l := F)) as (F0 & m & EF);
    [intros E; rewrite E in HsF; contradiction|].
  assert (Em : m = s).
  { assert (Hm : In m F) by (rewrite EF; apply in_or_app; right; now left).
    apply HinF in Hm as [[Hm|Hm] Pm]; [exact Hm|].
    exfalso. specialize (Hold m Hm Pm).
    rewrite EF in HsF, HS. apply in_app_or in HsF as [HsF|[HsF|[]]].
    - pose proof (sorted_last_is_max F0 m HS s HsF) as Hle.
      unfold tsle in Hle. rewrite Es in Hle. simpl in Hle. lia.
    - rewrite HsF, Es in Hold. simpl in Hold. lia. }
  subst m.
  exists (skipn (List.length F - 30) F0).
  unfold historyWindow. fold F. rewrite slice_suffix, EF.
  rewrite skipn_app, length_app. simpl.
  replace (List.length F0 + 1 - 30 - List.length F0)%nat with 0%nat by lia.
  reflexivity.
Qed.

Lemma new_reading_ends_window_witness :
  exists w,
    historyWindow
      (HistorySample.mk "doc-36" "thermostat-1"
         (newTemp mockDevices (randomTempChange (of_dyadic 3 2))) 2100000
       :: minuteSamples)
    = (w ++ [HistorySample.mk "doc-36" "thermostat-1"
               (newTemp mockDevices (randomTempChange (of_dyadic 3 2)))
               2100000])%list.
Proof.
  apply (new_reading_ends_window "app" "user" mockDevices
           (mkDate 35 0 2100000) (of_dyadic 3 2)
           (HistoryData "thermostat-1"
              (newTemp mockDevices (randomTempChange (of_dyadic 3 2)))
              2100000)
           "doc-36" _ minuteSamples).
  - left; reflexivity.
  - reflexivity.
  - intros x Hx _.
    unfold minuteSamples in Hx. destruct Hx as [<-|Hx]; [reflexivity|].
    apply in_map_iff in Hx as (i & <- & Hi).
    apply in_rev, in_seq in Hi.
    cbn [HistorySample.timestamp getTime]. lia.
  - apply Permutation_refl.
Defined.

(* ================================================================== *)
(** ** What a pass never writes *)



(** X20: when no rule of a pass throws, which rules fire does not
    depend on the order of the rules: every reordering of the rule
    sequence completes as well, and only reorders the effects.  (A rule
    whose document reference cannot be built ends the pass where it
    stands, so that without this condition the order does matter.) *)
Theorem rule_order_only_reorders (a u : string) (D : list Device.t)
    (R R' : list Rule.t) :
  Run.completes (evaluateChecked a u D R) ->
  Permutation R R' ->
  Run.completes (evaluateChecked a u D R')
  /\ Permutation (Run.effects (evaluateChecked a u D R))
                 (Run.effects (evaluateChecked a u D R')).
Proof.
  intros Hc HP.
  pose proof (evaluateChecked_completes_inv a u D R Hc) as HR.
  assert (HR' : forall r, In r R' -> aborts a u D r = false).
  { intros r Hr. apply HR.
    eapply Permutation_in; [apply Permutation_sym; exact HP | exact Hr]. }
  rewrite (evaluateChecked_quiet a u D R HR).
  rewrite (evaluateChecked_quiet a u D R' HR').
  split; [apply evaluate_completes|].
  rewrite !evaluate_spec. simpl. now apply Permutation_flat_map.
Qed.

Lemma rule_order_only_reorders_witness :
  Permutation
    (Run.effects (evaluateChecked "app" "user" mockDevices competingRules))
    (Run.effects
       (evaluateChecked "app" "user" mockDevices (rev competingRules))).
Proof.
  apply (rule_order_only_reorders "app" "user" mockDevices competingRules
           (rev competingRules)).
  - exists tt. reflexivity.
  - apply Permutation_rev.
Defined.
